(** * vectordatabase-sdk-go: request dispatch and capability handles

    A shallow embedding of the client core of the Go SDK:

    - [tcvectordb]: [ClientOption], [defaultOption], [optionMerge],
      [newClient] / [NewClient], [Client.Request], [Client.handleResponse]
      (src/tcvectordb/vdb_client.go);
    - [Engine]: [DropDatabase] and the database-scoped [SetAlias] /
      [DeleteAlias] (src/internal/engine/database.go);
    - [GatedAlias]: [SetAlias] / [DeleteAlias] behind the AI-database gate
      (src/unnamed/part_000).

    Go strings and byte slices are byte sequences: they are [string]s here
    (a Rocq [string] is a list of 8-bit [ascii]).  Go integers are [Z]; the
    code embedded here compares and copies them and does no arithmetic that
    could wrap, apart from the division of the status code by 100.  A Go
    [error] is a value of the type [error] below, [nil] is [None].  *)

From Stdlib Require Import ZArith NArith List String Ascii Bool Lia.
From Stdlib Require Import DecimalString.
Import ListNotations.

Open Scope string_scope.
Open Scope Z_scope.

Set Warnings "-register-all".

(** ** The parts of Go's [strings] and [fmt] packages used by the code *)

Module GoStrings.

(** [strings.HasPrefix(s, prefix)]. *)
Definition HasPrefix (s prefix : string) : bool := String.prefix prefix s.

(** [strings.Contains(s, substr)]: [substr] occurs in [s] as a run of
    consecutive bytes. *)
Fixpoint Contains (s substr : string) : bool :=
  String.prefix substr s ||
  match s with
  | EmptyString => false
  | String _ rest => Contains rest substr
  end.

(** [%d] of the formatting verbs: decimal digits, a minus sign for negative
    numbers. *)
Definition Itoa (n : Z) : string := NilZero.string_of_int (Z.to_int n).

End GoStrings.

(** ** Go's [encoding/json], as far as the client uses it

    [json.Valid] and [json.Unmarshal] belong to Go's standard library; the
    client decides between its error classes with them, so they are
    modelled: a byte-level scanner for the JSON grammar (RFC 8259, white
    space is space, tab, line feed and carriage return, nesting at most
    10000 deep as in Go's scanner), string unquoting with Go's replacement
    of ill-formed UTF-8 and of unpaired surrogates by U+FFFD, and the
    decoding rules of [Unmarshal] for struct targets with integer and
    string fields. *)

Module Json.

Local Open Scope N_scope.

(** One element of the text between the quotes of a string literal: a byte
    written as it is, a one-character escape (already replaced by the byte
    it stands for) or a [\uXXXX] escape (its four hex digits as a number). *)
Inductive sitem : Type :=
| Raw (b : N)
| Esc (b : N)
| U16 (u : N).

Inductive token : Type :=
| TLBrace | TRBrace | TLBracket | TRBracket | TColon | TComma
| TString (items : list sitem)
| TNumber (lit : string)
| TTrue | TFalse | TNull.

(** States of the scanner inside a number: after the minus sign, after a
    leading zero, inside the integer digits, after the dot, inside the
    fraction, after the exponent mark, after the exponent sign, inside the
    exponent. *)
Inductive numstate : Type :=
| NNeg | N0 | N1 | NDot | NDot0 | NE | NESign | NE0.

Inductive lstate : Type :=
| LStart
| LInString (acc : list sitem)
| LInStringEsc (acc : list sitem)
| LInStringU (acc : list sitem) (seen : nat) (u : N)
| LInNumber (ns : numstate) (acc : list ascii)
| LInLiteral (rest : list ascii) (t : token).

Definition code (c : ascii) : N := N_of_ascii c.

Definition is_digit (b : N) : bool := (48 <=? b) && (b <=? 57).
Definition is_digit19 (b : N) : bool := (49 <=? b) && (b <=? 57).
Definition is_space (b : N) : bool :=
  (b =? 32) || (b =? 9) || (b =? 13) || (b =? 10).
Definition is_exp (b : N) : bool := (b =? 101) || (b =? 69).

Definition hex_value (b : N) : option N :=
  if is_digit b then Some (b - 48)
  else if (97 <=? b) && (b <=? 102) then Some (b - 87)
  else if (65 <=? b) && (b <=? 70) then Some (b - 55)
  else None.

(** The byte a one-character escape stands for: the quote, the backslash and
    the slash stand for themselves, [b f n r t] for control characters. *)
Definition escape_value (b : N) : option N :=
  if (b =? 34) || (b =? 92) || (b =? 47) then Some b
  else if b =? 98 then Some 8
  else if b =? 102 then Some 12
  else if b =? 110 then Some 10
  else if b =? 114 then Some 13
  else if b =? 116 then Some 9
  else None.

Definition num_step (ns : numstate) (b : N) : option numstate :=
  match ns with
  | NNeg => if b =? 48 then Some N0 else if is_digit19 b then Some N1 else None
  | N0 => if b =? 46 then Some NDot else if is_exp b then Some NE else None
  | N1 => if is_digit b then Some N1
          else if b =? 46 then Some NDot else if is_exp b then Some NE else None
  | NDot => if is_digit b then Some NDot0 else None
  | NDot0 => if is_digit b then Some NDot0 else if is_exp b then Some NE else None
  | NE => if (b =? 43) || (b =? 45) then Some NESign
          else if is_digit b then Some NE0 else None
  | NESign => if is_digit b then Some NE0 else None
  | NE0 => if is_digit b then Some NE0 else None
  end.

Definition num_accepting (ns : numstate) : bool :=
  match ns with
  | N0 | N1 | NDot0 | NE0 => true
  | NNeg | NDot | NE | NESign => false
  end.

Definition number_token (acc : list ascii) : token :=
  TNumber (string_of_list_ascii (rev acc)).

(** A byte read where a token may begin. *)
Definition start_step (c : ascii) : option (lstate * list token) :=
  let b := code c in
  if is_space b then Some (LStart, [])
  else if b =? 123 then Some (LStart, [TLBrace])
  else if b =? 125 then Some (LStart, [TRBrace])
  else if b =? 91 then Some (LStart, [TLBracket])
  else if b =? 93 then Some (LStart, [TRBracket])
  else if b =? 58 then Some (LStart, [TColon])
  else if b =? 44 then Some (LStart, [TComma])
  else if b =? 34 then Some (LInString [], [])
  else if b =? 45 then Some (LInNumber NNeg [c], [])
  else if b =? 48 then Some (LInNumber N0 [c], [])
  else if is_digit19 b then Some (LInNumber N1 [c], [])
  else if b =? 116 then Some (LInLiteral (list_ascii_of_string "rue") TTrue, [])
  else if b =? 102 then Some (LInLiteral (list_ascii_of_string "alse") TFalse, [])
  else if b =? 110 then Some (LInLiteral (list_ascii_of_string "ull") TNull, [])
  else None.

(** One byte of input: the next state and the tokens completed by it. *)
Definition step (st : lstate) (c : ascii) : option (lstate * list token) :=
  let b := code c in
  match st with
  | LStart => start_step c
  | LInString acc =>
      if b =? 34 then Some (LStart, [TString (rev acc)])
      else if b =? 92 then Some (LInStringEsc acc, [])
      else if b <? 32 then None
      else Some (LInString (Raw b :: acc), [])
  | LInStringEsc acc =>
      if b =? 117 then Some (LInStringU acc 0%nat 0, [])
      else match escape_value b with
           | Some v => Some (LInString (Esc v :: acc), [])
           | None => None
           end
  | LInStringU acc seen u =>
      match hex_value b with
      | Some d =>
          let u' := u * 16 + d in
          if Nat.eqb seen 3 then Some (LInString (U16 u' :: acc), [])
          else Some (LInStringU acc (S seen) u', [])
      | None => None
      end
  | LInNumber ns acc =>
      match num_step ns b with
      | Some ns' => Some (LInNumber ns' (c :: acc), [])
      | None =>
          if num_accepting ns then
            match start_step c with
            | Some (st', ts) => Some (st', number_token acc :: ts)
            | None => None
            end
          else None
      end
  | LInLiteral rest t =>
      match rest with
      | [] => None
      | x :: rest' =>
          if Ascii.eqb c x then
            match rest' with
            | [] => Some (LStart, [t])
            | _ :: _ => Some (LInLiteral rest' t, [])
            end
          else None
      end
  end.

(** End of input: only a number can still be open. *)
Definition finish (st : lstate) : option (list token) :=
  match st with
  | LStart => Some []
  | LInNumber ns acc => if num_accepting ns then Some [number_token acc] else None
  | _ => None
  end.

Fixpoint lex_from (st : lstate) (s : string) : option (list token) :=
  match s with
  | EmptyString => finish st
  | String c rest =>
      match step st c with
      | None => None
      | Some (st', ts) =>
          match lex_from st' rest with
          | None => None
          | Some more => Some (ts ++ more)%list
          end
      end
  end.

Definition lex (s : string) : option (list token) := lex_from LStart s.

(** *** Unquoting: the bytes a string literal denotes *)

Definition replacement : list N := [0xEF; 0xBF; 0xBD].

(** [utf8.EncodeRune]. *)
Definition encode_rune (r : N) : list N :=
  if r <=? 0x7F then [r]
  else if r <=? 0x7FF then [0xC0 + r / 64; 0x80 + r mod 64]
  else if (0x10FFFF <? r) || ((0xD800 <=? r) && (r <=? 0xDFFF)) then replacement
  else if r <=? 0xFFFF then
    [0xE0 + r / 4096; 0x80 + (r / 64) mod 64; 0x80 + r mod 64]
  else
    [0xF0 + r / 262144; 0x80 + (r / 4096) mod 64; 0x80 + (r / 64) mod 64;
     0x80 + r mod 64].

Definition between (lo hi b : N) : bool := (lo <=? b) && (b <=? hi).

(** The first byte of a multi-byte UTF-8 sequence: the length of the
    sequence and the range its second byte must lie in ([utf8.DecodeRune]'s
    table; every later byte lies in 80..BF). *)
Definition utf8_lead (b : N) : option (nat * N * N) :=
  if between 0xC2 0xDF b then Some (2%nat, 0x80, 0xBF)
  else if b =? 0xE0 then Some (3%nat, 0xA0, 0xBF)
  else if between 0xE1 0xEC b then Some (3%nat, 0x80, 0xBF)
  else if b =? 0xED then Some (3%nat, 0x80, 0x9F)
  else if between 0xEE 0xEF b then Some (3%nat, 0x80, 0xBF)
  else if b =? 0xF0 then Some (4%nat, 0x90, 0xBF)
  else if between 0xF1 0xF3 b then Some (4%nat, 0x80, 0xBF)
  else if b =? 0xF4 then Some (4%nat, 0x80, 0x8F)
  else None.

Definition is_surrogate (u : N) : bool := between 0xD800 0xDFFF u.
Definition is_high_surrogate (u : N) : bool := between 0xD800 0xDBFF u.
Definition is_low_surrogate (u : N) : bool := between 0xDC00 0xDFFF u.

(** [utf16.DecodeRune] on a well-formed pair. *)
Definition surrogate_pair (hi lo : N) : N :=
  (hi - 0xD800) * 1024 + (lo - 0xDC00) + 0x10000.

Fixpoint unquote_items (l : list sitem) : list N :=
  match l with
  | [] => []
  | Esc b :: r => b :: unquote_items r
  | U16 u :: r =>
      if is_surrogate u then
        match r with
        | U16 u2 :: r' =>
            if is_high_surrogate u && is_low_surrogate u2
            then encode_rune (surrogate_pair u u2) ++ unquote_items r'
            else replacement ++ unquote_items r
        | _ => replacement ++ unquote_items r
        end
      else encode_rune u ++ unquote_items r
  | Raw b :: r =>
      if b <? 0x80 then b :: unquote_items r
      else
        match utf8_lead b with
        | None => replacement ++ unquote_items r
        | Some (size, lo, hi) =>
            match size, r with
            | 2%nat, Raw b2 :: r2 =>
                if between lo hi b2 then b :: b2 :: unquote_items r2
                else replacement ++ unquote_items r
            | 3%nat, Raw b2 :: Raw b3 :: r3 =>
                if between lo hi b2 && between 0x80 0xBF b3
                then b :: b2 :: b3 :: unquote_items r3
                else replacement ++ unquote_items r
            | 4%nat, Raw b2 :: Raw b3 :: Raw b4 :: r4 =>
                if between lo hi b2 && between 0x80 0xBF b3 && between 0x80 0xBF b4
                then b :: b2 :: b3 :: b4 :: unquote_items r4
                else replacement ++ unquote_items r
            | _, _ => replacement ++ unquote_items r
            end
        end
  end.

Definition unquote (items : list sitem) : string :=
  string_of_list_ascii (map ascii_of_N (unquote_items items)).

(** *** Values and the grammar *)

Inductive value : Type :=
| Null
| Bool (b : bool)
| Number (lit : string)
| Str (s : string)
| Array (elems : list value)
| Object (members : list (string * value)).

(** An open array or object of the input, with what was read of it. *)
Inductive frame : Type :=
| FArray (acc : list value)
| FObject (acc : list (string * value)) (key : option string).

Inductive expect : Type :=
| EValue | EValueOrClose | EKeyOrClose | EKey | EColon | ECommaOrClose
| EDone (v : value).

Definition maxNestingDepth : N := 10000.

Definition pstate : Type := expect * list frame.

(** A value is complete: it is the whole text, the next element of the
    innermost open array, or the value of the pending key of the innermost
    open object. *)
Definition complete (v : value) (stack : list frame) : option pstate :=
  match stack with
  | [] => Some (EDone v, [])
  | FArray acc :: st => Some (ECommaOrClose, FArray (v :: acc) :: st)
  | FObject acc (Some k) :: st =>
      Some (ECommaOrClose, FObject ((k, v) :: acc) None :: st)
  | FObject _ None :: _ => None
  end.

Definition push (f : frame) (e : expect) (stack : list frame) : option pstate :=
  if N.of_nat (List.length stack) <? maxNestingDepth then Some (e, f :: stack)
  else None.

Definition value_start (t : token) (stack : list frame) : option pstate :=
  match t with
  | TNull => complete Null stack
  | TTrue => complete (Bool true) stack
  | TFalse => complete (Bool false) stack
  | TNumber lit => complete (Number lit) stack
  | TString items => complete (Str (unquote items)) stack
  | TLBracket => push (FArray []) EValueOrClose stack
  | TLBrace => push (FObject [] None) EKeyOrClose stack
  | TRBrace | TRBracket | TColon | TComma => None
  end.

Definition set_key (k : string) (stack : list frame) : option pstate :=
  match stack with
  | FObject acc None :: st => Some (EColon, FObject acc (Some k) :: st)
  | _ => None
  end.

Definition pstep (ps : pstate) (t : token) : option pstate :=
  let (e, stack) := ps in
  match e with
  | EValue => value_start t stack
  | EValueOrClose =>
      match t, stack with
      | TRBracket, FArray [] :: st => complete (Array []) st
      | _, _ => value_start t stack
      end
  | EKeyOrClose =>
      match t, stack with
      | TRBrace, FObject [] None :: st => complete (Object []) st
      | TString items, _ => set_key (unquote items) stack
      | _, _ => None
      end
  | EKey =>
      match t with
      | TString items => set_key (unquote items) stack
      | _ => None
      end
  | EColon =>
      match t with
      | TColon => Some (EValue, stack)
      | _ => None
      end
  | ECommaOrClose =>
      match t, stack with
      | TComma, FArray _ :: _ => Some (EValue, stack)
      | TComma, FObject _ None :: _ => Some (EKey, stack)
      | TRBracket, FArray acc :: st => complete (Array (rev acc)) st
      | TRBrace, FObject acc None :: st => complete (Object (rev acc)) st
      | _, _ => None
      end
  | EDone _ => None
  end.

Fixpoint parse_tokens (ps : pstate) (ts : list token) : option value :=
  match ts with
  | [] =>
      match ps with
      | (EDone v, []) => Some v
      | _ => None
      end
  | t :: rest =>
      match pstep ps t with
      | None => None
      | Some ps' => parse_tokens ps' rest
      end
  end.

(** The value a text denotes, [None] when the text is not JSON. *)
Definition parse (data : string) : option value :=
  match lex data with
  | None => None
  | Some ts => parse_tokens (EValue, []) ts
  end.

(** [json.Valid(data)]. *)
Definition Valid (data : string) : bool :=
  match parse data with
  | Some _ => true
  | None => false
  end.

(** *** Unmarshal *)

Local Open Scope Z_scope.

(** The errors of [Unmarshal]: a [json.SyntaxError], or a
    [json.UnmarshalTypeError] with its fields [Value], [Type], [Struct] and
    [Field]. *)
Inductive Error : Type :=
| SyntaxError
| UnmarshalTypeError (Value Type_ Struct Field : string).

(** The method [Error] of these errors.  The text of a syntax error names the
    offending byte; the client calls [Unmarshal] on validated text only, and
    that text is abridged here. *)
Definition ErrorText (e : Error) : string :=
  match e with
  | SyntaxError => "json: syntax error"
  | UnmarshalTypeError v t st f =>
      if String.eqb st "" && String.eqb f "" then
        "json: cannot unmarshal " ++ v ++ " into Go value of type " ++ t
      else
        "json: cannot unmarshal " ++ v ++ " into Go struct field " ++ st ++ "."
          ++ f ++ " of type " ++ t
  end.

(** A Go type with its zero value. *)
Class Zero (T : Type) : Type := { zero : T }.

(** A target of [Unmarshal]: how a value is stored into it.  Decoding goes
    on after a type error, so the target comes back in both cases, together
    with the first error met. *)
Class Unmarshaler (T : Type) : Type :=
  { decode : value -> T -> T * option Error }.

(** [json.Unmarshal(data, &v)]: text that is not JSON leaves the target
    untouched. *)
Definition Unmarshal {T : Type} `{Unmarshaler T} (data : string) (v : T)
  : T * option Error :=
  match parse data with
  | None => (v, Some SyntaxError)
  | Some x => decode x v
  end.

(** What [UnmarshalTypeError.Value] says of a value of the wrong kind. *)
Definition describe (x : value) : string :=
  match x with
  | Null => "null"
  | Bool _ => "bool"
  | Number _ => "number"
  | Str _ => "string"
  | Array _ => "array"
  | Object _ => "object"
  end.

Fixpoint digits_value (acc : Z) (s : string) : option Z :=
  match s with
  | EmptyString => Some acc
  | String c rest =>
      let b := code c in
      if is_digit b then digits_value (10 * acc + Z.of_N (b - 48)%N) rest
      else None
  end.

(** [strconv.ParseInt(lit, 10, 64)] on a number literal, without the bound:
    a literal with a fraction or an exponent is refused. *)
Definition parse_int (lit : string) : option Z :=
  match lit with
  | EmptyString => None
  | String c rest =>
      if (code c =? 45)%N then
        match rest with
        | EmptyString => None
        | _ => option_map Z.opp (digits_value 0 rest)
        end
      else digits_value 0 lit
  end.

(** A field of a signed integer type with values [lo..hi]. *)
Definition decode_int_field (type_name : string) (lo hi : Z)
    (st field : string) (x : value) (cur : Z) : Z * option Error :=
  match x with
  | Null => (cur, None)
  | Number lit =>
      match parse_int lit with
      | Some n =>
          if (lo <=? n) && (n <=? hi) then (n, None)
          else (cur, Some (UnmarshalTypeError ("number " ++ lit) type_name st field))
      | None => (cur, Some (UnmarshalTypeError ("number " ++ lit) type_name st field))
      end
  | _ => (cur, Some (UnmarshalTypeError (describe x) type_name st field))
  end.

Definition decode_int32_field : string -> string -> value -> Z -> Z * option Error :=
  decode_int_field "int32" (- 2147483648) 2147483647.

Definition decode_int_kind_field : string -> string -> value -> Z -> Z * option Error :=
  decode_int_field "int" (- 9223372036854775808) 9223372036854775807.

Definition decode_string_field (st field : string) (x : value) (cur : string)
  : string * option Error :=
  match x with
  | Null => (cur, None)
  | Str s => (s, None)
  | _ => (cur, Some (UnmarshalTypeError (describe x) "string" st field))
  end.

(** Keys are matched with field names without regard to case.  The names
    of the fields decoded here are ASCII, and the only characters outside
    ASCII that fold to an ASCII letter are the long s (U+017F) and the Kelvin
    sign (U+212A). *)
Fixpoint fold_name (s : string) : string :=
  match s with
  | EmptyString => EmptyString
  | String c rest =>
      let b := code c in
      if between 97 122 b then String (ascii_of_N (b - 32)) (fold_name rest)
      else
        match rest with
        | String c2 rest2 =>
            if (b =? 0xC5)%N && (code c2 =? 0xBF)%N then String "S" (fold_name rest2)
            else
              match rest2 with
              | String c3 rest3 =>
                  if (b =? 0xE2)%N && (code c2 =? 0x84)%N && (code c3 =? 0xAA)%N
                  then String "K" (fold_name rest3)
                  else String c (fold_name rest)
              | EmptyString => String c (fold_name rest)
              end
        | EmptyString => String c EmptyString
        end
  end.

Definition equal_fold (key name : string) : bool :=
  String.eqb (fold_name key) (fold_name name).

Definition first_error (e1 e2 : option Error) : option Error :=
  match e1 with
  | Some _ => e1
  | None => e2
  end.

(** A struct target: [null] stores nothing, the members of an object are
    stored one after the other (a later member of the same name overwrites
    an earlier one), any other value is a type error. *)
Definition decode_struct {T : Type} (type_name : string)
    (member : string -> value -> T -> T * option Error)
    (x : value) (t : T) : T * option Error :=
  match x with
  | Null => (t, None)
  | Object ms =>
      fold_left
        (fun (st : T * option Error) (kv : string * value) =>
           let (t1, e1) := st in
           let (t2, e2) := member (fst kv) (snd kv) t1 in
           (t2, first_error e1 e2))
        ms (t, None)
  | _ => (t, Some (UnmarshalTypeError (describe x) type_name "" ""))
  end.

(** A pointer to a target ([None] is the nil pointer): [null] makes it nil,
    any other value is stored into what it points to, allocated first when
    the pointer is nil. *)
#[global] Instance Unmarshaler_pointer {T : Type} `{Zero T} `{Unmarshaler T}
  : Unmarshaler (option T) :=
  {| decode x o :=
       match x with
       | Null => (None, None)
       | _ =>
           let (t, e) := decode x (match o with Some t => t | None => zero end) in
           (Some t, e)
       end |}.

End Json.

(** ** Errors

    The client makes its errors with [errors.Errorf], [errors.New],
    [errors.Wrapf] and [fmt.Errorf]; one constructor stands for each place
    of the source that makes one.  [Foreign] is an error value handed over
    by a collaborator ([io.ReadAll], [http.NewRequest], [http.Client.Do], an
    implementation of [SdkClient] other than [Client]), of which only the
    text is known. *)
Inductive error : Type :=
| TransportError (StatusCode : Z) (body : string)
| InvalidContent (body : string)
| UnmarshalFailed (cause : Json.Error) (body : string)
| ServiceError (Code : Z) (Msg : string)
| InvalidURL (url : string)
| EmptyCredentials
| EncodeFailed (cause : string) (gosyntax : string)
| Foreign (text : string).

(** The method [Error()] of an error: the format strings of the source,
    [%d] and [%s] filled in; [errors.Wrapf] puts its own text, a colon and a
    space before the text of the cause. *)
Definition Error (e : error) : string :=
  match e with
  | TransportError status body =>
      "response code is " ++ GoStrings.Itoa status ++ ", " ++ body
  | InvalidContent body => "invalid response content: " ++ body
  | UnmarshalFailed cause body =>
      "json.Unmarshal failed with content:" ++ body ++ ": " ++ Json.ErrorText cause
  | ServiceError code msg =>
      "code: " ++ GoStrings.Itoa code ++ ", message: " ++ msg
  | InvalidURL url => "invalid url param with: " ++ url
  | EmptyCredentials => "username or key is empty"
  | EncodeFailed cause gosyntax => cause ++ ", " ++ gosyntax
  | Foreign text => text
  end.

(** The classes of section 7 of the specification, by the place an error
    comes from. *)
Inductive ErrorClass : Type :=
| ConstructionClass | TransportClass | MalformedResponseClass | ServiceClass
| OtherClass.

Definition class_of (e : error) : ErrorClass :=
  match e with
  | TransportError _ _ => TransportClass
  | InvalidContent _ | UnmarshalFailed _ _ => MalformedResponseClass
  | ServiceError _ _ => ServiceClass
  | InvalidURL _ | EmptyCredentials => ConstructionClass
  | EncodeFailed _ _ | Foreign _ => OtherClass
  end.

(** [context.Context]: the code hands it on and never looks into it. *)
Inductive GoContext : Type := context_Background | context_TODO.

(** ** Package [api]: what the Dispatcher needs of a request value

    The package is not among the sources.  [api.Method] and [api.Path] give
    the verb and the path of a request value; [Encode] is the JSON text
    [json.Encoder.Encode] writes for it, or the text of the encoder's error;
    [GoSyntax] is the value printed with [%#v]. *)
Module Api.

Class Request (R : Type) : Type :=
  { Method : R -> string;
    Path : R -> string;
    Encode : R -> string + string;
    GoSyntax : R -> string }.

Definition ReadConsistency : Type := string.

(** The constants of the package the client refers to. *)
Class Constants : Type :=
  { EventualConsistency : ReadConsistency }.

End Api.

(** ** [net/http], [log] and the remote side *)

Module Http.

(** An [http.RoundTripper]: the [http.Transport] the client builds for
    itself, or a value supplied by the caller, which is opaque and told
    apart from others by a tag. *)
Inductive RoundTripper : Type :=
| HttpTransport (InsecureSkipVerify : bool) (MaxIdleConnsPerHost : Z)
                (IdleConnTimeout : Z)
| CustomRoundTripper (tag : N).

(** [http.Client] with the two fields the client sets. *)
Record HttpClient : Type :=
  { Transport : RoundTripper;
    Timeout : Z }.

Record HttpRequest : Type :=
  { ReqMethod : string;
    ReqURL : string;
    ReqHeader : list (string * string);
    ReqBody : string }.

(** [request.Header.Add(key, value)]. *)
Definition Header_Add (r : HttpRequest) (k v : string) : HttpRequest :=
  {| ReqMethod := ReqMethod r;
     ReqURL := ReqURL r;
     ReqHeader := (ReqHeader r ++ [(k, v)])%list;
     ReqBody := ReqBody r |}.

(** What [io.ReadAll(res.Body)] returns. *)
Inductive ReadResult : Type :=
| ReadOk (data : string)
| ReadErr (e : error).

Record Response : Type :=
  { StatusCode : Z;
    Body : ReadResult }.

(** The surroundings of the client: the functions of Go's library whose
    result depends on more than the code embedded here fixes, the version
    constant of the package, and the remote side.  [Remote] is the state of
    the service and of the connections to it; [Do] is one round trip of
    [http.Client.Do]. *)
Class Runtime : Type :=
  { Remote : Type;
    SDKVersion : string;
    strings_ToUpper : string -> string;
    strings_TrimSpace : string -> string;
    http_NewRequest : string -> string -> string -> HttpRequest + error;
    http_Do : HttpClient -> HttpRequest -> Remote -> (Response + error) * Remote }.

(** The world a call runs in: the remote side and what the standard logger
    has been given so far. *)
Record World `{Runtime} : Type :=
  { remote : Remote;
    logged : list string }.

End Http.

(** ** A state monad over the world *)

Definition M (W A : Type) : Type := W -> A * W.

Definition ret {W A : Type} (a : A) : M W A := fun w => (a, w).

Definition bind {W A B : Type} (m : M W A) (k : A -> M W B) : M W B :=
  fun w => let (a, w') := m w in k a w'.

Declare Scope monad_scope.
Delimit Scope monad_scope with monad.
Notation "x <- m ;; k" := (bind m (fun x => k))
  (at level 61, m at next level, right associativity) : monad_scope.
Notation "m ;;; k" := (bind m (fun _ => k))
  (at level 61, right associativity) : monad_scope.

(** ** src/tcvectordb/vdb_client.go *)

Module tcvectordb.

Import Json.

(** [time.Duration] counts nanoseconds. *)
Definition time_Second : Z := 1000000000.
Definition time_Minute : Z := 60 * time_Second.

Record ClientOption : Type :=
  { Timeout : Z;
    MaxIdldConnPerHost : Z;
    IdleConnTimeout : Z;
    ReadConsistency : Api.ReadConsistency;
    Transport : option Http.RoundTripper }.

Definition set_Timeout (v : Z) (o : ClientOption) : ClientOption :=
  {| Timeout := v;
     MaxIdldConnPerHost := MaxIdldConnPerHost o;
     IdleConnTimeout := IdleConnTimeout o;
     ReadConsistency := ReadConsistency o;
     Transport := Transport o |}.

Definition set_MaxIdldConnPerHost (v : Z) (o : ClientOption) : ClientOption :=
  {| Timeout := Timeout o;
     MaxIdldConnPerHost := v;
     IdleConnTimeout := IdleConnTimeout o;
     ReadConsistency := ReadConsistency o;
     Transport := Transport o |}.

Definition set_IdleConnTimeout (v : Z) (o : ClientOption) : ClientOption :=
  {| Timeout := Timeout o;
     MaxIdldConnPerHost := MaxIdldConnPerHost o;
     IdleConnTimeout := v;
     ReadConsistency := ReadConsistency o;
     Transport := Transport o |}.

Definition set_ReadConsistency (v : Api.ReadConsistency) (o : ClientOption)
  : ClientOption :=
  {| Timeout := Timeout o;
     MaxIdldConnPerHost := MaxIdldConnPerHost o;
     IdleConnTimeout := IdleConnTimeout o;
     ReadConsistency := v;
     Transport := Transport o |}.

(** The four defaultable fields are none of them at their zero value. *)
Definition fully_specified (o : ClientOption) : Prop :=
  Timeout o <> 0 /\ MaxIdldConnPerHost o <> 0 /\ IdleConnTimeout o <> 0 /\
  ReadConsistency o <> "".

(** [CommmonResponse]: [Code] is an [int32] under the key [code], [Msg] a
    string under the key [msg]. *)
Record CommmonResponse : Type :=
  { Code : Z;
    Msg : string }.

#[global] Instance Zero_CommmonResponse : Zero CommmonResponse :=
  {| zero := {| Code := 0; Msg := "" |} |}.

Definition CommmonResponse_member (k : string) (x : value) (r : CommmonResponse)
  : CommmonResponse * option Json.Error :=
  if equal_fold k "code" then
    let (n, e) := decode_int32_field "CommmonResponse" "code" x (Code r) in
    ({| Code := n; Msg := Msg r |}, e)
  else if equal_fold k "msg" then
    let (m, e) := decode_string_field "CommmonResponse" "msg" x (Msg r) in
    ({| Code := Code r; Msg := m |}, e)
  else (r, None).

#[global] Instance Unmarshaler_CommmonResponse : Unmarshaler CommmonResponse :=
  {| decode := decode_struct "tcvectordb.CommmonResponse" CommmonResponse_member |}.

Section Options.

Context `{Api.Constants}.

Definition defaultOption : ClientOption :=
  {| Timeout := time_Second * 5;
     MaxIdldConnPerHost := 2;
     IdleConnTimeout := time_Minute;
     ReadConsistency := Api.EventualConsistency;
     Transport := None |}.

Definition optionMerge (opt : ClientOption) : ClientOption :=
  let opt :=
    if Timeout opt =? 0 then set_Timeout (Timeout defaultOption) opt else opt in
  let opt :=
    if IdleConnTimeout opt =? 0
    then set_IdleConnTimeout (IdleConnTimeout defaultOption) opt else opt in
  let opt :=
    if MaxIdldConnPerHost opt =? 0
    then set_MaxIdldConnPerHost (MaxIdldConnPerHost defaultOption) opt else opt in
  let opt :=
    if String.eqb (ReadConsistency opt) ""
    then set_ReadConsistency (ReadConsistency defaultOption) opt else opt in
  opt.

(** [Client], without the three embedded interfaces: [newClient] sets them
    to implementers that only hold the client itself. *)
Record Client : Type :=
  { cli : Http.HttpClient;
    url : string;
    username : string;
    key : string;
    clientOption : ClientOption;
    debug : bool }.

(** What construction refuses: a URL that does not begin with [http], an
    empty account, an empty key. *)
Definition refused (url username key : string) : Prop :=
  GoStrings.HasPrefix url "http" = false \/ username = "" \/ key = "".

Definition newClient (url username key : string) (opt : ClientOption)
  : option Client * option error :=
  if negb (GoStrings.HasPrefix url "http") then (None, Some (InvalidURL url))
  else if String.eqb username "" || String.eqb key "" then
    (None, Some EmptyCredentials)
  else
    let merged := optionMerge opt in
    let transport :=
      match Transport opt with
      | Some rt => rt
      | None =>
          Http.HttpTransport true (MaxIdldConnPerHost merged)
            (IdleConnTimeout merged)
      end in
    (Some {| cli := {| Http.Transport := transport;
                       Http.Timeout := Timeout merged |};
             url := url;
             username := username;
             key := key;
             clientOption := merged;
             debug := false |},
     None).

(** [NewClient]: a nil option pointer stands for [defaultOption]. *)
Definition NewClient (url username key : string) (opt : option ClientOption)
  : option Client * option error :=
  let opt :=
    match opt with
    | None => defaultOption
    | Some o => o
    end in
  newClient url username key (optionMerge opt).

(** [Debug] and [WithTimeout] change the client in place; here they return
    the changed client. *)
Definition Debug (c : Client) (v : bool) : Client :=
  {| cli := cli c; url := url c; username := username c; key := key c;
     clientOption := clientOption c; debug := v |}.

Definition WithTimeout (c : Client) (d : Z) : Client :=
  {| cli := {| Http.Transport := Http.Transport (cli c); Http.Timeout := d |};
     url := url c; username := username c; key := key c;
     clientOption := set_Timeout d (clientOption c);
     debug := debug c |}.

Definition Options (c : Client) : ClientOption := clientOption c.

(** The clients a caller can hold: what [newClient] returned, changed by
    any number of calls of [Debug] and [WithTimeout]. *)
Inductive constructed : Client -> Prop :=
| constructed_new (url username key : string) (opt : ClientOption) (c : Client) :
    fst (newClient url username key opt) = Some c -> constructed c
| constructed_Debug (c : Client) (v : bool) :
    constructed c -> constructed (Debug c v)
| constructed_WithTimeout (c : Client) (d : Z) :
    constructed c -> constructed (WithTimeout c d).

(** What the construction checks and sets up, as a property of a client. *)
Definition client_invariant (c : Client) : Prop :=
  GoStrings.HasPrefix (url c) "http" = true /\
  username c <> "" /\ key c <> "" /\
  Http.Timeout (cli c) = Timeout (clientOption c) /\
  MaxIdldConnPerHost (clientOption c) <> 0 /\
  IdleConnTimeout (clientOption c) <> 0.

End Options.

Section Dispatch.

Context `{Http.Runtime}.

Local Open Scope monad_scope.

(** [log.Printf] with the format filled in: the standard logger is given
    the message. *)
Definition log_Printf (msg : string) : M Http.World unit :=
  fun w => (tt, {| Http.remote := Http.remote w;
                   Http.logged := (Http.logged w ++ [msg])%list |}).

(** The two messages of the debug mode, formats filled in. *)
Definition debug_REQUEST (method path body : string) : string :=
  "[DEBUG] REQUEST, Method: " ++ method ++ ", Path: " ++ path ++ ", Body: " ++ body.

Definition debug_RESPONSE (status : Z) (body : string) : string :=
  "[DEBUG] RESPONSE: " ++ GoStrings.Itoa status ++ " " ++ body.

(** The status codes of the success class. *)
Definition is_2xx (status : Z) : Prop := 200 <= status <= 299.

(** [c.cli.Do(request)]: one round trip. *)
Definition client_Do (hc : Http.HttpClient) (request : Http.HttpRequest)
  : M Http.World (Http.Response + error) :=
  fun w =>
    let (r, remote') := Http.http_Do hc request (Http.remote w) in
    (r, {| Http.remote := remote'; Http.logged := Http.logged w |}).

(** [handleResponse].  The body is read first; the deferred [Body.Close]
    only gives the connection back and is not part of the model.  The
    division by 100 is Go's, which rounds towards zero. *)
Definition handleResponse {Rs : Type} `{Unmarshaler Rs}
    (c : Client) (ctx : GoContext) (res : Http.Response) (out : Rs)
  : M Http.World (Rs * option error) :=
  match Http.Body res with
  | Http.ReadErr err => ret (out, Some err)
  | Http.ReadOk responseBytes =>
      (if debug c
       then log_Printf (debug_RESPONSE (Http.StatusCode res) responseBytes)
       else ret tt) ;;;
      if negb (Z.quot (Http.StatusCode res) 100 =? 2) then
        ret (out, Some (TransportError (Http.StatusCode res) responseBytes))
      else if negb (Json.Valid responseBytes) then
        ret (out, Some (InvalidContent responseBytes))
      else
        let (commenRes, err) := Json.Unmarshal responseBytes (zero : CommmonResponse) in
        match err with
        | Some e => ret (out, Some (UnmarshalFailed e responseBytes))
        | None =>
            if negb (Code commenRes =? 0) then
              ret (out, Some (ServiceError (Code commenRes) (Msg commenRes)))
            else
              let (out', err) := Json.Unmarshal responseBytes out in
              match err with
              | Some e => ret (out', Some (UnmarshalFailed e responseBytes))
              | None => ret (out', None)
              end
        end
  end.

(** [Request]: [res] is what the caller's result pointer points to; it comes
    back as the call leaves it. *)
Definition Request {Rq Rs : Type} `{Api.Request Rq} `{Unmarshaler Rs}
    (c : Client) (ctx : GoContext) (req : Rq) (res : Rs)
  : M Http.World (Rs * option error) :=
  let method := Api.Method req in
  let path := Api.Path req in
  match Api.Encode req with
  | inr cause => ret (res, Some (EncodeFailed cause (Api.GoSyntax req)))
  | inl reqBody =>
      match Http.http_NewRequest (Http.strings_ToUpper method) (url c ++ path) reqBody with
      | inr err => ret (res, Some err)
      | inl request =>
          (if debug c
           then log_Printf (debug_REQUEST method path (Http.strings_TrimSpace reqBody))
           else ret tt) ;;;
          let auth := "Bearer account=" ++ username c ++ "&api_key=" ++ key c in
          let request := Http.Header_Add request "Authorization" auth in
          let request := Http.Header_Add request "Content-Type" "application/json" in
          let request := Http.Header_Add request "Sdk-Version" Http.SDKVersion in
          response <- client_Do (cli c) request ;;
          match response with
          | inr err => ret (res, Some err)
          | inl response => handleResponse c ctx response res
          end
      end
  end.

(** The three headers [Request] adds, in the order it adds them. *)
Definition with_headers (c : Client) (request : Http.HttpRequest) : Http.HttpRequest :=
  Http.Header_Add
    (Http.Header_Add
       (Http.Header_Add request "Authorization"
          ("Bearer account=" ++ username c ++ "&api_key=" ++ key c))
       "Content-Type" "application/json")
    "Sdk-Version" Http.SDKVersion.

(** The records the debug mode may add to the log during [Request]: the
    outgoing verb, path and body, and the incoming status and body. *)
Definition is_debug_record {Rq : Type} `{Api.Request Rq} (req : Rq) (m : string) : Prop :=
  (exists body, Api.Encode req = inl body /\
     m = debug_REQUEST (Api.Method req) (Api.Path req) (Http.strings_TrimSpace body)) \/
  (exists status body, m = debug_RESPONSE status body).

End Dispatch.

End tcvectordb.

(** ** The [SdkClient] interface

    The handles hold an [SdkClient] and reach the service through its
    method [Request] only.  An implementation gets a request value it can
    route and encode and a result target it can decode into, and runs in
    some world [W]; what it does there is its own business.  (The methods
    [Options], [WithTimeout], [Debug] and [Close] of the interface are not
    called by the code embedded here.) *)
Module Sdk.

Record SdkClient (W : Type) : Type :=
  { Request :
      forall (Rq Rs : Type), Api.Request Rq -> Json.Unmarshaler Rs ->
        GoContext -> Rq -> Rs -> M W (Rs * option error) }.

Arguments Request {W} _ {Rq Rs _ _} _ _ _ _.

(** [Client] implements the interface. *)
Definition of_Client `{Http.Runtime} (c : tcvectordb.Client)
  : SdkClient Http.World :=
  {| Request := fun Rq Rs _ _ => tcvectordb.Request c |}.

(** A call returns its results or panics. *)
Inductive outcome (A : Type) : Type :=
| Returns (a : A)
| Panics.

Arguments Returns {A} a.
Arguments Panics {A}.

End Sdk.

(** ** Packages [api/database], [api/alias] and [entity]

    None of them is among the sources.  The request structs are known by
    the fields the handles fill in, the result structs by the field they
    read. *)
Module database.

Record CreateReq : Type := { CreateReq_Database : string }.
Record DropReq : Type := { DropReq_Database : string }.

(** [ListReq] is built without any field; of [ListRes] the handles read
    the names of the databases. *)
Inductive ListReq : Type := mkListReq.

Module ListRes.
Record t : Type := { Databases : list string }.
End ListRes.

#[global] Instance Zero_ListRes : Json.Zero ListRes.t :=
  {| Json.zero := {| ListRes.Databases := [] |} |}.

End database.

Module alias.

Record SetReq : Type :=
  { SetReq_Database : string;
    SetReq_Collection : string;
    SetReq_Alias : string }.

Record DeleteReq : Type :=
  { DeleteReq_Database : string;
    DeleteReq_Alias : string }.

Module SetRes.
Record t : Type := { AffectedCount : Z }.
End SetRes.

Module DeleteRes.
Record t : Type := { AffectedCount : Z }.
End DeleteRes.

#[global] Instance Zero_SetRes : Json.Zero SetRes.t :=
  {| Json.zero := {| SetRes.AffectedCount := 0 |} |}.

#[global] Instance Zero_DeleteRes : Json.Zero DeleteRes.t :=
  {| Json.zero := {| DeleteRes.AffectedCount := 0 |} |}.

End alias.

Module entity.

Module SetAliasResult.
Record t : Type := { AffectedCount : Z }.
End SetAliasResult.

Module DeleteAliasResult.
Record t : Type := { AffectedCount : Z }.
End DeleteAliasResult.

(** The option structs are passed and never read. *)
Definition SetAliasOption : Type := unit.
Definition DeleteAliasOption : Type := unit.

(** Modelled from the spec: [entity.Database] and its method [IsAIDatabase]
    are declared outside the sources.  Section 3 (Scope Chain): a Database
    Handle holds the database name and a database kind, Ordinary or AI,
    fixed at creation. *)
Inductive DatabaseKind : Type := Ordinary | AI.

Record Database : Type :=
  { DatabaseName : string;
    databaseKind : DatabaseKind }.

Definition IsAIDatabase (d : Database) : bool :=
  match databaseKind d with
  | AI => true
  | Ordinary => false
  end.

End entity.

(** ** src/internal/engine/database.go *)

Module Engine.

Section Handles.

Context {W : Type}.

(** The routing and encoding of the request structs, and the result structs
    of package [api/database] (no field of which is read), belong to
    package [api]. *)
Context `{Api.Request database.CreateReq} `{Api.Request database.DropReq}
        {CreateRes DropRes : Type}
        `{Json.Zero CreateRes} `{Json.Unmarshaler CreateRes}
        `{Json.Zero DropRes} `{Json.Unmarshaler DropRes}
        `{Api.Request alias.SetReq} `{Api.Request alias.DeleteReq}
        `{Json.Unmarshaler alias.SetRes.t} `{Json.Unmarshaler alias.DeleteRes.t}.

Local Open Scope monad_scope.

Record implementerDatabase : Type :=
  { implementerDatabase_SdkClient : Sdk.SdkClient W }.

Record implementerCollection : Type :=
  { implementerCollection_SdkClient : Sdk.SdkClient W;
    implementerCollection_databaseName : string }.

(** [model.Database]. *)
Record Database : Type :=
  { CollectionInterface : implementerCollection;
    DatabaseName : string }.

(** [Database]: a handle for a name, built without any request. *)
Definition Database_ (i : implementerDatabase) (name : string) : Database :=
  {| CollectionInterface :=
       {| implementerCollection_SdkClient := implementerDatabase_SdkClient i;
          implementerCollection_databaseName := name |};
     DatabaseName := name |}.

Definition CreateDatabase (i : implementerDatabase) (ctx : GoContext) (name : string)
  : M W (option Database * option error) :=
  let req := {| database.CreateReq_Database := name |} in
  let res : CreateRes := Json.zero in
  r <- Sdk.Request (implementerDatabase_SdkClient i) ctx req res ;;
  match snd r with
  | Some err => ret (None, Some err)
  | None => ret (Some (Database_ i name), None)
  end.

(** [DropDatabase]: its only result is the error. *)
Definition DropDatabase (i : implementerDatabase) (ctx : GoContext) (name : string)
  : M W (option error) :=
  let req := {| database.DropReq_Database := name |} in
  let res : DropRes := Json.zero in
  r <- Sdk.Request (implementerDatabase_SdkClient i) ctx req res ;;
  match snd r with
  | Some err =>
      if GoStrings.Contains (Error err) "not exist" then ret None
      else ret (Some err)
  | None => ret None
  end.

Record implementerAlias : Type :=
  { implementerAlias_SdkClient : Sdk.SdkClient W;
    databaseName : string }.

(** [SetAlias].  [res] is a pointer and [Request] is given its address, so
    the call may leave it nil; reading [res.AffectedCount] then panics. *)
Definition SetAlias (i : implementerAlias) (ctx : GoContext)
    (collectionName aliasName : string) (opt : option entity.SetAliasOption)
  : M W (Sdk.outcome (option entity.SetAliasResult.t * option error)) :=
  let req := {| alias.SetReq_Database := databaseName i;
                alias.SetReq_Collection := collectionName;
                alias.SetReq_Alias := aliasName |} in
  let res : option alias.SetRes.t := Some Json.zero in
  let result := {| entity.SetAliasResult.AffectedCount := 0 |} in
  r <- Sdk.Request (implementerAlias_SdkClient i) ctx req res ;;
  match snd r with
  | Some err => ret (Sdk.Returns (Some result, Some err))
  | None =>
      match fst r with
      | None => ret Sdk.Panics
      | Some res =>
          ret (Sdk.Returns
                 (Some {| entity.SetAliasResult.AffectedCount :=
                            alias.SetRes.AffectedCount res |},
                  None))
      end
  end.

Definition DeleteAlias (i : implementerAlias) (ctx : GoContext)
    (aliasName : string) (opt : option entity.DeleteAliasOption)
  : M W (Sdk.outcome (option entity.DeleteAliasResult.t * option error)) :=
  let req := {| alias.DeleteReq_Database := databaseName i;
                alias.DeleteReq_Alias := aliasName |} in
  let res : option alias.DeleteRes.t := Some Json.zero in
  let result := {| entity.DeleteAliasResult.AffectedCount := 0 |} in
  r <- Sdk.Request (implementerAlias_SdkClient i) ctx req res ;;
  match snd r with
  | Some err => ret (Sdk.Returns (Some result, Some err))
  | None =>
      match fst r with
      | None => ret Sdk.Panics
      | Some res =>
          ret (Sdk.Returns
                 (Some {| entity.DeleteAliasResult.AffectedCount :=
                            alias.DeleteRes.AffectedCount res |},
                  None))
      end
  end.

(** [VectorDB]: the root handle over an [SdkClient]. *)
Definition VectorDB (sdkClient : Sdk.SdkClient W) : implementerDatabase :=
  {| implementerDatabase_SdkClient := sdkClient |}.

Context `{Api.Request database.ListReq} `{Json.Unmarshaler database.ListRes.t}.

(** [ListDatabase]: one handle for each name of the response, in the order
    of the response.  The result slice is nil until the first [append], so a
    nil slice and an empty one are the same list here. *)
Definition ListDatabase (i : implementerDatabase) (ctx : GoContext)
  : M W (list Database * option error) :=
  let req := database.mkListReq in
  let res : database.ListRes.t := Json.zero in
  r <- Sdk.Request (implementerDatabase_SdkClient i) ctx req res ;;
  match snd r with
  | Some err => ret ([], Some err)
  | None =>
      ret (fold_left (fun databases v => (databases ++ [Database_ i v])%list)
             (database.ListRes.Databases (fst r)) [],
           None)
  end.

(** The result list of a call, as its caller receives it: [CreateDatabase]
    returns a database handle and an error, [DropDatabase] returns
    [(err error)] alone, the alias operations return a result struct and an
    error. *)
Inductive result_value : Type :=
| of_error (e : option error)
| of_Database (d : option Database)
| of_SetAliasResult (r : option entity.SetAliasResult.t)
| of_DeleteAliasResult (r : option entity.DeleteAliasResult.t).

Definition CreateDatabase_results (r : option Database * option error)
  : list result_value := [of_Database (fst r); of_error (snd r)].

Definition DropDatabase_results (err : option error) : list result_value :=
  [of_error err].

Definition SetAlias_results (r : option entity.SetAliasResult.t * option error)
  : list result_value := [of_SetAliasResult (fst r); of_error (snd r)].

Definition DeleteAlias_results (r : option entity.DeleteAliasResult.t * option error)
  : list result_value := [of_DeleteAliasResult (fst r); of_error (snd r)].

(** The affected count a value of a result list carries: that of a result
    struct that is not nil. *)
Definition affected_count (v : result_value) : option Z :=
  match v with
  | of_SetAliasResult (Some r) => Some (entity.SetAliasResult.AffectedCount r)
  | of_DeleteAliasResult (Some r) => Some (entity.DeleteAliasResult.AffectedCount r)
  | _ => None
  end.

Definition carries_affected_count (vs : list result_value) : Prop :=
  exists v n, In v vs /\ affected_count v = Some n.

End Handles.

End Engine.

(** ** src/unnamed/part_000: the alias operations behind the gate *)

Module GatedAlias.

Section Handles.

Context {W : Type}.

Context `{Api.Request alias.SetReq} `{Api.Request alias.DeleteReq}
        `{Json.Unmarshaler alias.SetRes.t} `{Json.Unmarshaler alias.DeleteRes.t}.

(** [entity.AIDbTypeError], a package variable declared outside the
    sources. *)
Variable AIDbTypeError : error.

Local Open Scope monad_scope.

Record implementerAlias : Type :=
  { implementerAlias_SdkClient : Sdk.SdkClient W;
    database : entity.Database }.

Definition SetAlias (i : implementerAlias) (ctx : GoContext)
    (collectionName aliasName : string) (opt : list (option entity.SetAliasOption))
  : M W (Sdk.outcome (option entity.SetAliasResult.t * option error)) :=
  if entity.IsAIDatabase (database i) then
    ret (Sdk.Returns (None, Some AIDbTypeError))
  else
    let req := {| alias.SetReq_Database := entity.DatabaseName (database i);
                  alias.SetReq_Collection := collectionName;
                  alias.SetReq_Alias := aliasName |} in
    let res : option alias.SetRes.t := Some Json.zero in
    let result := {| entity.SetAliasResult.AffectedCount := 0 |} in
    r <- Sdk.Request (implementerAlias_SdkClient i) ctx req res ;;
    match snd r with
    | Some err => ret (Sdk.Returns (Some result, Some err))
    | None =>
        match fst r with
        | None => ret Sdk.Panics
        | Some res =>
            ret (Sdk.Returns
                   (Some {| entity.SetAliasResult.AffectedCount :=
                              alias.SetRes.AffectedCount res |},
                    None))
        end
    end.

Definition DeleteAlias (i : implementerAlias) (ctx : GoContext)
    (aliasName : string) (opt : list (option entity.DeleteAliasOption))
  : M W (Sdk.outcome (option entity.DeleteAliasResult.t * option error)) :=
  if entity.IsAIDatabase (database i) then
    ret (Sdk.Returns (None, Some AIDbTypeError))
  else
    let req := {| alias.DeleteReq_Database := entity.DatabaseName (database i);
                  alias.DeleteReq_Alias := aliasName |} in
    let res : option alias.DeleteRes.t := Some Json.zero in
    let result := {| entity.DeleteAliasResult.AffectedCount := 0 |} in
    r <- Sdk.Request (implementerAlias_SdkClient i) ctx req res ;;
    match snd r with
    | Some err => ret (Sdk.Returns (Some result, Some err))
    | None =>
        match fst r with
        | None => ret Sdk.Panics
        | Some res =>
            ret (Sdk.Returns
                   (Some {| entity.DeleteAliasResult.AffectedCount :=
                              alias.DeleteRes.AffectedCount res |},
                    None))
        end
    end.

End Handles.

End GatedAlias.

(** ** A test transport

    The scenarios below run the client against a transport that counts the
    calls it gets, keeps the requests, and answers from a script.  The
    remaining members of the runtime are the plain ASCII versions of the
    library functions; the values of the absent packages are test values. *)

Module TestTransport.

(** JSON texts are written with an apostrophe for each double quote. *)
Definition quoted (s : string) : string :=
  string_of_list_ascii
    (map (fun c => if Ascii.eqb c "'" then ascii_of_nat 34 else c)
       (list_ascii_of_string s)).

Record state : Type :=
  { calls : N;
    sent : list Http.HttpRequest;
    script : list (Http.Response + error) }.

Definition round_trip (hc : Http.HttpClient) (rq : Http.HttpRequest) (st : state)
  : (Http.Response + error) * state :=
  match script st with
  | [] =>
      (inr (Foreign "EOF"),
       {| calls := calls st + 1; sent := (sent st ++ [rq])%list; script := [] |})
  | r :: rest =>
      (r, {| calls := calls st + 1; sent := (sent st ++ [rq])%list; script := rest |})
  end.

Definition upper_ascii (c : ascii) : ascii :=
  let b := N_of_ascii c in
  if ((97 <=? b) && (b <=? 122))%N then ascii_of_N (b - 32) else c.

Definition ToUpper (s : string) : string :=
  string_of_list_ascii (map upper_ascii (list_ascii_of_string s)).

Definition ascii_space (c : ascii) : bool :=
  let b := N_of_ascii c in
  ((b =? 9) || (b =? 10) || (b =? 11) || (b =? 12) || (b =? 13) || (b =? 32))%N.

Fixpoint drop_space (l : list ascii) : list ascii :=
  match l with
  | c :: rest => if ascii_space c then drop_space rest else l
  | [] => []
  end.

Definition TrimSpace (s : string) : string :=
  string_of_list_ascii
    (rev (drop_space (rev (drop_space (list_ascii_of_string s))))).

#[export] Instance runtime : Http.Runtime :=
  {| Http.Remote := state;
     Http.SDKVersion := "v1.4.7";
     Http.strings_ToUpper := ToUpper;
     Http.strings_TrimSpace := TrimSpace;
     Http.http_NewRequest := fun method url body =>
       inl {| Http.ReqMethod := method; Http.ReqURL := url;
              Http.ReqHeader := []; Http.ReqBody := body |};
     Http.http_Do := round_trip |}.

#[export] Instance constants : Api.Constants :=
  {| Api.EventualConsistency := "eventualConsistency" |}.

(** A world in which nothing was sent or logged, with the answers to
    come. *)
Definition fresh (answers : list (Http.Response + error)) : Http.World :=
  {| Http.remote := {| calls := 0; sent := []; script := answers |};
     Http.logged := [] |}.

Definition answer (status : Z) (body : string) : Http.Response + error :=
  inl {| Http.StatusCode := status; Http.Body := Http.ReadOk body |}.

(** Request values of the scenarios: routed to a path of the service and
    encoded as the object of their fields (names without characters that
    need escaping). *)
Definition field (k v : string) : string :=
  quoted "'" ++ k ++ quoted "':'" ++ v ++ quoted "'".

Definition newline : string := String (ascii_of_nat 10) EmptyString.

#[export] Instance Request_DropReq : Api.Request database.DropReq :=
  {| Api.Method := fun _ => "post";
     Api.Path := fun _ => "/database/drop";
     Api.Encode := fun r =>
       inl ("{" ++ field "database" (database.DropReq_Database r) ++ "}" ++ newline);
     Api.GoSyntax := fun r => "database.DropReq{}" |}.

#[export] Instance Request_CreateReq : Api.Request database.CreateReq :=
  {| Api.Method := fun _ => "post";
     Api.Path := fun _ => "/database/create";
     Api.Encode := fun r =>
       inl ("{" ++ field "database" (database.CreateReq_Database r) ++ "}" ++ newline);
     Api.GoSyntax := fun r => "database.CreateReq{}" |}.

#[export] Instance Request_SetReq : Api.Request alias.SetReq :=
  {| Api.Method := fun _ => "post";
     Api.Path := fun _ => "/alias/set";
     Api.Encode := fun r =>
       inl ("{" ++ field "database" (alias.SetReq_Database r) ++ ","
                ++ field "collection" (alias.SetReq_Collection r) ++ ","
                ++ field "alias" (alias.SetReq_Alias r) ++ "}" ++ newline);
     Api.GoSyntax := fun r => "&alias.SetReq{}" |}.

#[export] Instance Request_DeleteReq : Api.Request alias.DeleteReq :=
  {| Api.Method := fun _ => "post";
     Api.Path := fun _ => "/alias/delete";
     Api.Encode := fun r =>
       inl ("{" ++ field "database" (alias.DeleteReq_Database r) ++ ","
                ++ field "alias" (alias.DeleteReq_Alias r) ++ "}" ++ newline);
     Api.GoSyntax := fun r => "&alias.DeleteReq{}" |}.

#[export] Instance Request_ListReq : Api.Request database.ListReq :=
  {| Api.Method := fun _ => "post";
     Api.Path := fun _ => "/database/list";
     Api.Encode := fun _ => inl ("{}" ++ newline);
     Api.GoSyntax := fun _ => "database.ListReq{}" |}.

(** Result structs of the scenarios: the envelope fields and the affected
    count, an [int] under the key [affectedCount]. *)
Record CountRes : Type :=
  { CountRes_Code : Z;
    CountRes_Msg : string;
    CountRes_AffectedCount : Z }.

#[export] Instance Zero_CountRes : Json.Zero CountRes :=
  {| Json.zero := {| CountRes_Code := 0; CountRes_Msg := ""; CountRes_AffectedCount := 0 |} |}.

Definition CountRes_member (k : string) (x : Json.value) (r : CountRes)
  : CountRes * option Json.Error :=
  if Json.equal_fold k "code" then
    let (n, e) := Json.decode_int32_field "CountRes" "code" x (CountRes_Code r) in
    ({| CountRes_Code := n; CountRes_Msg := CountRes_Msg r;
        CountRes_AffectedCount := CountRes_AffectedCount r |}, e)
  else if Json.equal_fold k "msg" then
    let (m, e) := Json.decode_string_field "CountRes" "msg" x (CountRes_Msg r) in
    ({| CountRes_Code := CountRes_Code r; CountRes_Msg := m;
        CountRes_AffectedCount := CountRes_AffectedCount r |}, e)
  else if Json.equal_fold k "affectedCount" then
    let (n, e) :=
      Json.decode_int_kind_field "CountRes" "affectedCount" x (CountRes_AffectedCount r) in
    ({| CountRes_Code := CountRes_Code r; CountRes_Msg := CountRes_Msg r;
        CountRes_AffectedCount := n |}, e)
  else (r, None).

#[export] Instance Unmarshaler_CountRes : Json.Unmarshaler CountRes :=
  {| Json.decode := Json.decode_struct "api.CountRes" CountRes_member |}.

Definition SetRes_member (k : string) (x : Json.value) (r : alias.SetRes.t)
  : alias.SetRes.t * option Json.Error :=
  if Json.equal_fold k "affectedCount" then
    let (n, e) :=
      Json.decode_int_kind_field "SetRes" "affectedCount" x (alias.SetRes.AffectedCount r) in
    ({| alias.SetRes.AffectedCount := n |}, e)
  else (r, None).

#[export] Instance Unmarshaler_SetRes : Json.Unmarshaler alias.SetRes.t :=
  {| Json.decode := Json.decode_struct "alias.SetRes" SetRes_member |}.

Definition DeleteRes_member (k : string) (x : Json.value) (r : alias.DeleteRes.t)
  : alias.DeleteRes.t * option Json.Error :=
  if Json.equal_fold k "affectedCount" then
    let (n, e) :=
      Json.decode_int_kind_field "DeleteRes" "affectedCount" x
        (alias.DeleteRes.AffectedCount r) in
    ({| alias.DeleteRes.AffectedCount := n |}, e)
  else (r, None).

#[export] Instance Unmarshaler_DeleteRes : Json.Unmarshaler alias.DeleteRes.t :=
  {| Json.decode := Json.decode_struct "alias.DeleteRes" DeleteRes_member |}.

(** A test value for [entity.AIDbTypeError]. *)
Definition AIDbTypeError : error := Foreign "the database type is AI".

(** The client of scenario A. *)
Definition client : tcvectordb.Client :=
  match fst (tcvectordb.NewClient "http://host:8100" "root" "k" None) with
  | Some c => c
  | None =>
      {| tcvectordb.cli := {| Http.Transport := Http.CustomRoundTripper 0;
                              Http.Timeout := 0 |};
         tcvectordb.url := ""; tcvectordb.username := ""; tcvectordb.key := "";
         tcvectordb.clientOption := tcvectordb.defaultOption;
         tcvectordb.debug := false |}
  end.

End TestTransport.

(** ** Occurrences of a character

    A character that does not occur in a text: a pattern that begins with
    it cannot begin inside that text. *)
Fixpoint absent (c : ascii) (s : string) : Prop :=
  match s with
  | EmptyString => True
  | String x s' => x <> c /\ absent c s'
  end.

(** ** Proof automation

    Goals made of conjunctions of implications between equations on
    concrete results. *)
Ltac settle_cases :=
  repeat first
    [ progress cbn [class_of fst snd] in *
    | match goal with
      | |- _ /\ _ => split
      | |- _ <-> _ => split
      | |- forall _, _ => intro
      | H : _ /\ _ |- _ => destruct H
      | H : Some _ = None |- _ => discriminate H
      | H : None = Some _ |- _ => discriminate H
      | H : true = false |- _ => discriminate H
      | H : Some _ = Some _ |- _ =>
          let H' := fresh in injection H as H'; subst
      end ];
  try reflexivity; try contradiction; try congruence; auto.

(** * Properties *)

(** ** The JSON model on sample texts *)

Example Valid_accepts :
  map Json.Valid
    [TestTransport.quoted "{'code':0}"; "[]"; " null "; "-0.5e+10"; "true";
     TestTransport.quoted "'a\né'"]
  = [true; true; true; true; true; true].
Proof. vm_compute. reflexivity. Qed.

Example Valid_refuses :
  map Json.Valid
    [""; "01"; "1."; "[1,]"; TestTransport.quoted "{'a':1,}"; TestTransport.quoted "{'a'}";
     "nul"; "1 2"; TestTransport.quoted "'\x'"; TestTransport.quoted "{'code':1}}";
     "{code:1}"]
  = [false; false; false; false; false; false; false; false; false; false; false].
Proof. vm_compute. reflexivity. Qed.

(** Keys match without regard to case, a later member overwrites an earlier
    one, members of other names are skipped. *)
Example Unmarshal_envelope_keys :
  Json.Unmarshal
    (TestTransport.quoted "{'Code':7,'MSG':'a','code':8,'extra':[1,{'code':9}]}")
    (Json.zero : tcvectordb.CommmonResponse)
  = ({| tcvectordb.Code := 8; tcvectordb.Msg := "a" |}, None).
Proof. vm_compute. reflexivity. Qed.

(** [null] stores nothing. *)
Example Unmarshal_envelope_null :
  Json.Unmarshal (TestTransport.quoted "{'code':null,'msg':null}")
    {| tcvectordb.Code := 3; tcvectordb.Msg := "m" |}
  = ({| tcvectordb.Code := 3; tcvectordb.Msg := "m" |}, None) /\
  Json.Unmarshal "null" {| tcvectordb.Code := 3; tcvectordb.Msg := "m" |}
  = ({| tcvectordb.Code := 3; tcvectordb.Msg := "m" |}, None).
Proof. split; vm_compute; reflexivity. Qed.

(** A code outside [int32], or written with a fraction, is a type error. *)
Example Unmarshal_envelope_int32 :
  snd (Json.Unmarshal (TestTransport.quoted "{'code':2147483648}")
         (Json.zero : tcvectordb.CommmonResponse))
  = Some (Json.UnmarshalTypeError "number 2147483648" "int32" "CommmonResponse" "code") /\
  Json.Unmarshal (TestTransport.quoted "{'code':-2147483648}")
    (Json.zero : tcvectordb.CommmonResponse)
  = ({| tcvectordb.Code := - 2147483648; tcvectordb.Msg := "" |}, None) /\
  snd (Json.Unmarshal (TestTransport.quoted "{'code':1.0}")
         (Json.zero : tcvectordb.CommmonResponse))
  = Some (Json.UnmarshalTypeError "number 1.0" "int32" "CommmonResponse" "code").
Proof. repeat split; vm_compute; reflexivity. Qed.

(** Decoding goes on after a type error, and the first error is the one
    returned. *)
Example Unmarshal_envelope_first_error :
  Json.Unmarshal (TestTransport.quoted "{'msg':1,'code':'x','msg':'later'}")
    (Json.zero : tcvectordb.CommmonResponse)
  = ({| tcvectordb.Code := 0; tcvectordb.Msg := "later" |},
     Some (Json.UnmarshalTypeError "number" "string" "CommmonResponse" "msg")).
Proof. vm_compute. reflexivity. Qed.

Example Unmarshal_envelope_array :
  Json.Unmarshal "[]" (Json.zero : tcvectordb.CommmonResponse)
  = (Json.zero, Some (Json.UnmarshalTypeError "array" "tcvectordb.CommmonResponse" "" "")).
Proof. vm_compute. reflexivity. Qed.

(** A surrogate pair is one character of four bytes; a surrogate alone is
    replaced by U+FFFD. *)
Example unquote_surrogates :
  Json.unquote [Json.U16 0xD83D; Json.U16 0xDE00; Json.U16 0xDC00; Json.Raw 120]
  = string_of_list_ascii
      (map ascii_of_N [0xF0; 0x9F; 0x98; 0x80; 0xEF; 0xBF; 0xBD; 120]%N).
Proof. vm_compute. reflexivity. Qed.

Example Error_texts :
  Error (ServiceError 1 "collection not exist") = "code: 1, message: collection not exist" /\
  Error (TransportError 404 "page not found") = "response code is 404, page not found" /\
  Error (InvalidContent "<html>") = "invalid response content: <html>" /\
  Error (UnmarshalFailed
           (Json.UnmarshalTypeError "array" "tcvectordb.CommmonResponse" "" "") "[]")
  = "json.Unmarshal failed with content:[]: json: cannot unmarshal array into Go value of type tcvectordb.CommmonResponse".
Proof. repeat split; vm_compute; reflexivity. Qed.

(** ** Strings *)

Lemma Contains_append_left (a s p : string) :
  GoStrings.Contains s p = true -> GoStrings.Contains (a ++ s) p = true.
Proof.
  intros Hs. induction a as [|c a IH]; cbn [append].
  - exact Hs.
  - cbn [GoStrings.Contains]. rewrite IH. apply orb_true_r.
Qed.

(** ** Transport configuration: [optionMerge] *)

Section OptionsProperties.

Context `{Api.Constants}.

Import tcvectordb.

Lemma optionMerge_eq (o : ClientOption) :
  optionMerge o =
  {| Timeout := if Timeout o =? 0 then 5000000000 else Timeout o;
     MaxIdldConnPerHost := if MaxIdldConnPerHost o =? 0 then 2 else MaxIdldConnPerHost o;
     IdleConnTimeout := if IdleConnTimeout o =? 0 then 60000000000 else IdleConnTimeout o;
     ReadConsistency :=
       if String.eqb (ReadConsistency o) "" then Api.EventualConsistency
       else ReadConsistency o;
     Transport := Transport o |}.
Proof.
  destruct o as [t m i r tr]. unfold optionMerge. cbn.
  destruct (t =? 0); cbn; destruct (i =? 0); cbn; destruct (m =? 0); cbn;
    destruct (String.eqb r ""); reflexivity.
Qed.

(** C5: configuration resolution is a total, pure function of the
    configuration (no world is threaded through it and its result carries
    no error); in its result every defaultable field that was zero holds
    its default (5 s, 2, 60 s, eventual consistency), every defaultable
    field that was not zero holds what it held, and the transport is the
    one given. *)
Theorem optionMerge_defaults (o : ClientOption) :
  (Timeout o = 0 -> Timeout (optionMerge o) = 5 * time_Second) /\
  (Timeout o <> 0 -> Timeout (optionMerge o) = Timeout o) /\
  (MaxIdldConnPerHost o = 0 -> MaxIdldConnPerHost (optionMerge o) = 2) /\
  (MaxIdldConnPerHost o <> 0 ->
     MaxIdldConnPerHost (optionMerge o) = MaxIdldConnPerHost o) /\
  (IdleConnTimeout o = 0 -> IdleConnTimeout (optionMerge o) = 60 * time_Second) /\
  (IdleConnTimeout o <> 0 -> IdleConnTimeout (optionMerge o) = IdleConnTimeout o) /\
  (ReadConsistency o = "" ->
     ReadConsistency (optionMerge o) = Api.EventualConsistency) /\
  (ReadConsistency o <> "" -> ReadConsistency (optionMerge o) = ReadConsistency o) /\
  Transport (optionMerge o) = Transport o.
Proof.
  rewrite optionMerge_eq. cbn [Timeout MaxIdldConnPerHost IdleConnTimeout
                                 ReadConsistency Transport].
  repeat split; intros Hf.
  - rewrite Hf. reflexivity.
  - apply Z.eqb_neq in Hf. rewrite Hf. reflexivity.
  - rewrite Hf. reflexivity.
  - apply Z.eqb_neq in Hf. rewrite Hf. reflexivity.
  - rewrite Hf. reflexivity.
  - apply Z.eqb_neq in Hf. rewrite Hf. reflexivity.
  - rewrite Hf. reflexivity.
  - apply String.eqb_neq in Hf. rewrite Hf. reflexivity.
Qed.

Lemma optionMerge_fully_specified (o : ClientOption) :
  Api.EventualConsistency <> "" -> fully_specified (optionMerge o).
Proof.
  intros Hc. rewrite optionMerge_eq. unfold fully_specified.
  cbn [Timeout MaxIdldConnPerHost IdleConnTimeout ReadConsistency].
  repeat split.
  - destruct (Timeout o =? 0) eqn:E; [discriminate | now apply Z.eqb_neq].
  - destruct (MaxIdldConnPerHost o =? 0) eqn:E; [discriminate | now apply Z.eqb_neq].
  - destruct (IdleConnTimeout o =? 0) eqn:E; [discriminate | now apply Z.eqb_neq].
  - destruct (String.eqb (ReadConsistency o) "") eqn:E;
      [exact Hc | now apply String.eqb_neq].
Qed.

Lemma optionMerge_noop (o : ClientOption) :
  fully_specified o -> optionMerge o = o.
Proof.
  intros (Ht & Hm & Hi & Hr). rewrite optionMerge_eq.
  apply Z.eqb_neq in Ht, Hm, Hi. apply String.eqb_neq in Hr.
  rewrite Ht, Hm, Hi, Hr. destruct o; reflexivity.
Qed.

Lemma optionMerge_idempotent (o : ClientOption) :
  optionMerge (optionMerge o) = optionMerge o.
Proof.
  rewrite (optionMerge_eq (optionMerge o)), (optionMerge_eq o).
  cbn [Timeout MaxIdldConnPerHost IdleConnTimeout ReadConsistency Transport].
  f_equal.
  - destruct (Timeout o =? 0) eqn:E; [reflexivity | now rewrite E].
  - destruct (MaxIdldConnPerHost o =? 0) eqn:E; [reflexivity | now rewrite E].
  - destruct (IdleConnTimeout o =? 0) eqn:E; [reflexivity | now rewrite E].
  - destruct (String.eqb (ReadConsistency o) "") eqn:E; [| now rewrite E].
    destruct (String.eqb Api.EventualConsistency ""); reflexivity.
Qed.

(** C6: provided the constant [api.EventualConsistency] (declared outside
    the sources) is not the empty string, no defaultable field of a resolved
    configuration is at its zero value; resolving a configuration whose four
    defaultable fields are set returns it unchanged; and resolving twice is
    resolving once. *)
Theorem optionMerge_never_zero_and_idempotent (o : ClientOption) :
  Api.EventualConsistency <> "" ->
  fully_specified (optionMerge o) /\
  (fully_specified o -> optionMerge o = o) /\
  optionMerge (optionMerge o) = optionMerge o.
Proof.
  intros Hc. split; [| split].
  - now apply optionMerge_fully_specified.
  - apply optionMerge_noop.
  - apply optionMerge_idempotent.
Qed.

End OptionsProperties.

(** ** Construction: [newClient] and [NewClient] *)

Section ConstructionProperties.

Context `{Api.Constants}.

Import tcvectordb.

Lemma newClient_refuses (url username key : string) (opt : ClientOption) :
  refused url username key ->
  exists e, newClient url username key opt = (None, Some e) /\
            class_of e = ConstructionClass.
Proof.
  unfold refused, newClient. intros Hr.
  destruct (GoStrings.HasPrefix url "http") eqn:Hp; cbn [negb].
  - destruct (String.eqb username "") eqn:Hu; cbn [orb].
    + exists EmptyCredentials. split; reflexivity.
    + destruct (String.eqb key "") eqn:Hk.
      * exists EmptyCredentials. split; reflexivity.
      * apply String.eqb_neq in Hu, Hk.
        destruct Hr as [Hr | [Hr | Hr]]; [discriminate | contradiction | contradiction].
  - exists (InvalidURL url). split; reflexivity.
Qed.

Lemma newClient_accepts (url username key : string) (opt : ClientOption) :
  ~ refused url username key ->
  exists c, newClient url username key opt = (Some c, None) /\
            tcvectordb.url c = url /\ tcvectordb.username c = username /\
            tcvectordb.key c = key /\ debug c = false /\
            clientOption c = optionMerge opt.
Proof.
  unfold refused, newClient. intros Hr.
  destruct (GoStrings.HasPrefix url "http") eqn:Hp; cbn [negb].
  - destruct (String.eqb username "") eqn:Hu; cbn [orb].
    + apply String.eqb_eq in Hu. exfalso. apply Hr. right. left. exact Hu.
    + destruct (String.eqb key "") eqn:Hk.
      * apply String.eqb_eq in Hk. exfalso. apply Hr. right. right. exact Hk.
      * eexists. split; [reflexivity |]. cbn. repeat split.
  - exfalso. apply Hr. left. reflexivity.
Qed.

Lemma refused_dec (url username key : string) :
  refused url username key \/ ~ refused url username key.
Proof.
  unfold refused.
  destruct (GoStrings.HasPrefix url "http");
    destruct (string_dec username ""); destruct (string_dec key ""); intuition congruence.
Qed.

(** C7: [newClient] returns an error, and then a Construction Error and no
    client, if and only if the URL does not begin with [http], or the
    account is empty, or the key is empty; otherwise it returns no error and
    a client that holds the URL, the account and the key it was given.  The
    same holds of [NewClient], whatever the option pointer.  Both are
    functions of their arguments alone: no world is threaded through
    them, so nothing is sent. *)
Theorem newClient_construction_error_iff
    (url username key : string) (opt : ClientOption) (optp : option ClientOption) :
  ((exists e, snd (newClient url username key opt) = Some e) <->
   refused url username key) /\
  ((exists e, snd (NewClient url username key optp) = Some e) <->
   refused url username key) /\
  (forall e, snd (newClient url username key opt) = Some e ->
     fst (newClient url username key opt) = None /\ class_of e = ConstructionClass) /\
  (forall e, snd (NewClient url username key optp) = Some e ->
     fst (NewClient url username key optp) = None /\ class_of e = ConstructionClass) /\
  (snd (newClient url username key opt) = None ->
     exists c, fst (newClient url username key opt) = Some c /\
               tcvectordb.url c = url /\ tcvectordb.username c = username /\
               tcvectordb.key c = key) /\
  (snd (NewClient url username key optp) = None ->
     exists c, fst (NewClient url username key optp) = Some c /\
               tcvectordb.url c = url /\ tcvectordb.username c = username /\
               tcvectordb.key c = key).
Proof.
  assert (Hall : forall o,
    ((exists e, snd (newClient url username key o) = Some e) <->
     refused url username key) /\
    (forall e, snd (newClient url username key o) = Some e ->
       fst (newClient url username key o) = None /\ class_of e = ConstructionClass) /\
    (snd (newClient url username key o) = None ->
       exists c, fst (newClient url username key o) = Some c /\
                 tcvectordb.url c = url /\ tcvectordb.username c = username /\
                 tcvectordb.key c = key)).
  { intros o. destruct (refused_dec url username key) as [Hr | Hr].
    - destruct (newClient_refuses url username key o Hr) as (e & He & Hc).
      rewrite He. cbn. split; [| split].
      + split; [intros _; exact Hr | intros _; exists e; reflexivity].
      + intros e' He'. injection He' as <-. split; [reflexivity | exact Hc].
      + discriminate.
    - destruct (newClient_accepts url username key o Hr) as (c & He & Hu & Hn & Hk & _).
      rewrite He. cbn. split; [| split].
      + split; [intros (e & He'); discriminate | intros Hr'; contradiction].
      + discriminate.
      + intros _. exists c. repeat split; assumption. }
  unfold NewClient.
  destruct (Hall opt) as (A1 & A2 & A3).
  destruct (Hall (optionMerge match optp with Some o => o | None => defaultOption end))
    as (B1 & B2 & B3).
  split; [exact A1 |]. split; [exact B1 |]. split; [exact A2 |].
  split; [exact B2 |]. split; [exact A3 | exact B3].
Qed.

End ConstructionProperties.

(** ** The Dispatcher: [handleResponse] and [Request] *)

Lemma status_class (status : Z) :
  (Z.quot status 100 =? 2) = true <-> tcvectordb.is_2xx status.
Proof.
  unfold tcvectordb.is_2xx. rewrite Z.eqb_eq.
  pose proof (Z.quot_rem' status 100) as Hq.
  destruct (Z_le_gt_dec 0 status) as [Hs | Hs].
  - pose proof (Z.rem_bound_pos status 100 Hs ltac:(lia)). lia.
  - pose proof (Z.rem_bound_pos_neg status 100 ltac:(lia) ltac:(lia)). lia.
Qed.

Lemma Unmarshal_ok_Valid {T : Type} `{Json.Unmarshaler T} (data : string) (v : T) :
  snd (Json.Unmarshal data v) = None -> Json.Valid data = true.
Proof.
  unfold Json.Unmarshal, Json.Valid. destruct (Json.parse data); [reflexivity | discriminate].
Qed.

Section DispatchProperties.

Context `{Http.Runtime}.

Import tcvectordb.

(** What [handleResponse] returns, the log apart: it does not depend on the
    debug flag nor on the world. *)
Lemma handleResponse_run {Rs : Type} `{Json.Unmarshaler Rs}
    (c : Client) (ctx : GoContext) (res : Http.Response) (out : Rs) (w : Http.World) :
  handleResponse c ctx res out w =
  (fst (handleResponse (Debug c false) ctx res out w),
   {| Http.remote := Http.remote w;
      Http.logged :=
        (Http.logged w ++
         match Http.Body res with
         | Http.ReadOk body =>
             if debug c then [debug_RESPONSE (Http.StatusCode res) body] else []
         | Http.ReadErr _ => []
         end)%list |}).
Proof.
  unfold handleResponse. destruct w as [rm lg]. destruct (Http.Body res) as [body | e].
  - cbn [Debug debug]. unfold bind, ret, log_Printf. cbn [Http.remote Http.logged].
    destruct (negb (Z.quot (Http.StatusCode res) 100 =? 2));
      [destruct (debug c); cbn; rewrite ?app_nil_r; reflexivity |].
    destruct (negb (Json.Valid body));
      [destruct (debug c); cbn; rewrite ?app_nil_r; reflexivity |].
    destruct (Json.Unmarshal body Json.zero) as [env [e |]];
      [destruct (debug c); cbn; rewrite ?app_nil_r; reflexivity |].
    destruct (negb (Code env =? 0));
      [destruct (debug c); cbn; rewrite ?app_nil_r; reflexivity |].
    destruct (Json.Unmarshal body out) as [out' [e |]];
      destruct (debug c); cbn; rewrite ?app_nil_r; reflexivity.
  - unfold ret. cbn. rewrite app_nil_r. reflexivity.
Qed.

(** A body that cannot be read: the error of the read is returned. *)
Lemma handleResponse_read_error {Rs : Type} `{Json.Unmarshaler Rs}
    (c : Client) (ctx : GoContext) (status : Z) (e : error) (out : Rs) (w : Http.World) :
  fst (handleResponse c ctx {| Http.StatusCode := status; Http.Body := Http.ReadErr e |} out w)
  = (out, Some e).
Proof. reflexivity. Qed.

(** The result of [handleResponse] on a body that was read, branch by
    branch. *)
Lemma handleResponse_result {Rs : Type} `{Json.Unmarshaler Rs}
    (c : Client) (ctx : GoContext) (status : Z) (body : string) (out : Rs)
    (w : Http.World) :
  fst (handleResponse c ctx {| Http.StatusCode := status; Http.Body := Http.ReadOk body |} out w)
  = if negb (Z.quot status 100 =? 2) then (out, Some (TransportError status body))
    else if negb (Json.Valid body) then (out, Some (InvalidContent body))
    else
      match Json.Unmarshal body (Json.zero : CommmonResponse) with
      | (_, Some e) => (out, Some (UnmarshalFailed e body))
      | (commenRes, None) =>
          if negb (Code commenRes =? 0)
          then (out, Some (ServiceError (Code commenRes) (Msg commenRes)))
          else
            match Json.Unmarshal body out with
            | (out', Some e) => (out', Some (UnmarshalFailed e body))
            | (out', None) => (out', None)
            end
      end.
Proof.
  rewrite handleResponse_run. cbn [fst]. unfold handleResponse.
  cbn [Http.Body Http.StatusCode Debug debug]. unfold bind, ret.
  destruct (negb (Z.quot status 100 =? 2)); [reflexivity |].
  destruct (negb (Json.Valid body)); [reflexivity |].
  destruct (Json.Unmarshal body Json.zero) as [env [e |]]; [reflexivity |].
  destruct (negb (Code env =? 0)); [reflexivity |].
  destruct (Json.Unmarshal body out) as [out' [e |]]; reflexivity.
Qed.

(** The result is the same for every client and every world: it is a
    function of the response and of the target. *)
Lemma handleResponse_result_independent {Rs : Type} `{Json.Unmarshaler Rs}
    (c c' : Client) (ctx : GoContext) (res : Http.Response) (out : Rs)
    (w w' : Http.World) :
  fst (handleResponse c ctx res out w) = fst (handleResponse c' ctx res out w').
Proof.
  destruct res as [status [body | e]].
  - rewrite !handleResponse_result. reflexivity.
  - reflexivity.
Qed.

(** A 2xx response whose envelope decodes with a code other than zero. *)
Lemma handleResponse_service_error_general {Rs : Type} `{Json.Unmarshaler Rs}
    (c : Client) (ctx : GoContext) (status : Z) (body : string) (out : Rs)
    (w : Http.World) (envelope : CommmonResponse) :
  is_2xx status ->
  Json.Unmarshal body (Json.zero : CommmonResponse) = (envelope, None) ->
  Code envelope <> 0 ->
  fst (handleResponse c ctx
         {| Http.StatusCode := status; Http.Body := Http.ReadOk body |} out w)
  = (out, Some (ServiceError (Code envelope) (Msg envelope))).
Proof.
  intros H2 He Hc. rewrite handleResponse_result.
  apply status_class in H2. rewrite H2. cbn [negb].
  assert (HV : Json.Valid body = true).
  { apply (Unmarshal_ok_Valid body (Json.zero : CommmonResponse)). now rewrite He. }
  rewrite HV, He. cbn [negb].
  apply Z.eqb_neq in Hc. rewrite Hc. reflexivity.
Qed.

(** C1 (amended): for every response whose body is read, [handleResponse]
    returns a Transport Error carrying the raw status and body when the
    status is not in 200..299; otherwise a Malformed Response Error when the
    body is not valid JSON; otherwise a Malformed Response Error wrapping
    the decode error when the body does not decode into the envelope
    (code, msg), the output target untouched; otherwise a Service Error
    carrying the envelope's code and message when the code is not zero;
    otherwise it decodes the body into the output target and fails with a
    Malformed Response Error exactly when that decode fails.  It returns
    success exactly when the status is 2xx, the body is valid JSON, the
    envelope decodes, its code is 0 and the result decode succeeds; every
    error it returns on a body that was read is of one of the three
    classes. *)
Theorem handleResponse_classification {Rs : Type} `{Json.Unmarshaler Rs}
    (c : Client) (ctx : GoContext) (status : Z) (body : string) (out : Rs)
    (w : Http.World) :
  let r := fst (handleResponse c ctx
                  {| Http.StatusCode := status; Http.Body := Http.ReadOk body |} out w) in
  let envelope := Json.Unmarshal body (Json.zero : CommmonResponse) in
  let decoded := Json.Unmarshal body out in
  (~ is_2xx status -> r = (out, Some (TransportError status body))) /\
  (is_2xx status -> Json.Valid body = false -> r = (out, Some (InvalidContent body))) /\
  (is_2xx status -> Json.Valid body = true ->
     forall e, snd envelope = Some e -> r = (out, Some (UnmarshalFailed e body))) /\
  (is_2xx status -> snd envelope = None -> Code (fst envelope) <> 0 ->
     r = (out, Some (ServiceError (Code (fst envelope)) (Msg (fst envelope))))) /\
  (is_2xx status -> snd envelope = None -> Code (fst envelope) = 0 ->
     forall e, snd decoded = Some e -> r = (fst decoded, Some (UnmarshalFailed e body))) /\
  (snd r = None <->
     is_2xx status /\ Json.Valid body = true /\ snd envelope = None /\
     Code (fst envelope) = 0 /\ snd decoded = None) /\
  (snd r = None -> fst r = fst decoded) /\
  (forall e, snd r = Some e ->
     class_of e = TransportClass \/ class_of e = MalformedResponseClass \/
     class_of e = ServiceClass).
Proof.
  intros r envelope decoded. subst r. rewrite handleResponse_result.
  subst envelope decoded.
  pose proof (status_class status) as Hst.
  destruct (Z.quot status 100 =? 2) eqn:E2; cbn [negb].
  - assert (H2 : is_2xx status) by (apply Hst; reflexivity). clear Hst.
    destruct (Json.Valid body) eqn:EV; cbn [negb].
    + destruct (Json.Unmarshal body (Json.zero : CommmonResponse)) as [env [e |]];
        cbn [fst snd].
      * settle_cases.
      * destruct (Code env =? 0) eqn:EC; cbn [negb].
        -- apply Z.eqb_eq in EC.
           destruct (Json.Unmarshal body out) as [out' [e |]]; cbn [fst snd];
             settle_cases.
        -- apply Z.eqb_neq in EC. settle_cases.
    + pose proof (@Unmarshal_ok_Valid CommmonResponse _ body Json.zero) as HV.
      destruct (Json.Unmarshal body (Json.zero : CommmonResponse)) as [env [e |]];
        cbn [fst snd] in *; [| specialize (HV eq_refl); congruence].
      settle_cases.
  - assert (H2 : ~ is_2xx status) by (intros Hc; apply Hst in Hc; discriminate).
    settle_cases.
Qed.

(** [Request] with the debug flag set and cleared. *)
Lemma Request_debug_general {Rq Rs : Type} `{Api.Request Rq} `{Json.Unmarshaler Rs}
    (c : Client) (ctx : GoContext) (req : Rq) (res : Rs) (w : Http.World) :
  let on := Request (Debug c true) ctx req res w in
  let off := Request (Debug c false) ctx req res w in
  fst on = fst off /\
  Http.remote (snd on) = Http.remote (snd off) /\
  Http.logged (snd off) = Http.logged w /\
  exists records, Http.logged (snd on) = (Http.logged w ++ records)%list /\
                  Forall (is_debug_record req) records.
Proof.
  unfold Request. cbn [Debug debug cli url username key].
  destruct (Api.Encode req) as [reqBody | cause] eqn:Eenc.
  2: { cbn. repeat split. exists []. split; [now rewrite app_nil_r | constructor]. }
  destruct (Http.http_NewRequest _ _ reqBody) as [request | err].
  2: { cbn. repeat split. exists []. split; [now rewrite app_nil_r | constructor]. }
  unfold bind, log_Printf, ret, client_Do. cbn [Http.remote Http.logged].
  destruct (Http.http_Do _ _ (Http.remote w)) as [[response | err] remote'].
  - rewrite (handleResponse_run (Debug c true)),
      (handleResponse_run (Debug c false) ctx response res
         {| Http.remote := remote'; Http.logged := Http.logged w |}).
    cbn [fst snd Http.remote Http.logged Debug debug].
    split; [apply handleResponse_result_independent |].
    split; [reflexivity |].
    split.
    + destruct (Http.Body response); now rewrite app_nil_r.
    + eexists. split; [rewrite <- app_assoc; reflexivity |].
      constructor.
      * left. exists reqBody. split; [exact Eenc | reflexivity].
      * destruct (Http.Body response); constructor; [| constructor].
        right. eexists. eexists. reflexivity.
  - cbn. repeat split. eexists. split; [reflexivity |].
    constructor; [| constructor]. left. exists reqBody. split; [exact Eenc | reflexivity].
Qed.

Lemma handleResponse_debug_general {Rs : Type} `{Json.Unmarshaler Rs}
    (c : Client) (ctx : GoContext) (response : Http.Response) (out : Rs)
    (w : Http.World) :
  let on := handleResponse (Debug c true) ctx response out w in
  let off := handleResponse (Debug c false) ctx response out w in
  fst on = fst off /\
  Http.remote (snd on) = Http.remote w /\
  Http.remote (snd off) = Http.remote w /\
  Http.logged (snd off) = Http.logged w /\
  exists records, Http.logged (snd on) = (Http.logged w ++ records)%list /\
    Forall (fun m => exists body, Http.Body response = Http.ReadOk body /\
                       m = debug_RESPONSE (Http.StatusCode response) body) records.
Proof.
  cbv zeta.
  rewrite (handleResponse_run (Debug c false) ctx response out w),
    (handleResponse_run (Debug c true) ctx response out w).
  cbn [fst snd Http.remote Http.logged Debug debug].
  split; [apply handleResponse_result_independent |].
  split; [reflexivity |]. split; [reflexivity |].
  split.
  - destruct (Http.Body response); now rewrite app_nil_r.
  - eexists. split; [reflexivity |].
    destruct (Http.Body response) as [body | e]; constructor; [| constructor].
    exists body. split; reflexivity.
Qed.

(** C9: for every client, request value, result target, response and world,
    [Request] and [handleResponse] return the same error and the same
    decoded result, and leave the remote side in the same state, whether the
    debug flag is set or not; with the flag cleared nothing is logged, with
    the flag set the log grows by records of the outgoing verb, path and
    body and of the incoming status and body, and by nothing else. *)
Theorem debug_flag_only_adds_log_records {Rq Rs : Type}
    `{Api.Request Rq} `{Json.Unmarshaler Rs}
    (c : Client) (ctx : GoContext) (req : Rq) (res : Rs)
    (response : Http.Response) (w : Http.World) :
  (fst (Request (Debug c true) ctx req res w) = fst (Request (Debug c false) ctx req res w) /\
   Http.remote (snd (Request (Debug c true) ctx req res w)) =
     Http.remote (snd (Request (Debug c false) ctx req res w)) /\
   Http.logged (snd (Request (Debug c false) ctx req res w)) = Http.logged w /\
   exists records,
     Http.logged (snd (Request (Debug c true) ctx req res w)) =
       (Http.logged w ++ records)%list /\
     Forall (is_debug_record req) records) /\
  (fst (handleResponse (Debug c true) ctx response res w) =
     fst (handleResponse (Debug c false) ctx response res w) /\
   Http.remote (snd (handleResponse (Debug c true) ctx response res w)) = Http.remote w /\
   Http.remote (snd (handleResponse (Debug c false) ctx response res w)) = Http.remote w /\
   Http.logged (snd (handleResponse (Debug c false) ctx response res w)) = Http.logged w /\
   exists records,
     Http.logged (snd (handleResponse (Debug c true) ctx response res w)) =
       (Http.logged w ++ records)%list /\
     Forall (fun m => exists body, Http.Body response = Http.ReadOk body /\
                        m = debug_RESPONSE (Http.StatusCode response) body) records).
Proof.
  split.
  - apply Request_debug_general.
  - apply handleResponse_debug_general.
Qed.

End DispatchProperties.

(** ** Capability handles *)

Section EngineProperties.

Context {W : Type}.

Context `{Api.Request database.CreateReq} `{Api.Request database.DropReq}
        {CreateRes DropRes : Type}
        `{Json.Zero CreateRes} `{Json.Unmarshaler CreateRes}
        `{Json.Zero DropRes} `{Json.Unmarshaler DropRes}
        `{Api.Request alias.SetReq} `{Api.Request alias.DeleteReq}
        `{Json.Unmarshaler alias.SetRes.t} `{Json.Unmarshaler alias.DeleteRes.t}.

(** [DropDatabase] in terms of the one dispatch it makes. *)
Lemma DropDatabase_run (i : Engine.implementerDatabase) (ctx : GoContext)
    (name : string) (w : W) :
  Engine.DropDatabase (DropRes := DropRes) i ctx name w =
  (match snd (fst (Sdk.Request (Engine.implementerDatabase_SdkClient i) ctx
                     {| database.DropReq_Database := name |} (Json.zero : DropRes) w)) with
   | Some err => if GoStrings.Contains (Error err) "not exist" then None else Some err
   | None => None
   end,
   snd (Sdk.Request (Engine.implementerDatabase_SdkClient i) ctx
          {| database.DropReq_Database := name |} (Json.zero : DropRes) w)).
Proof.
  unfold Engine.DropDatabase, bind, ret.
  destruct (Sdk.Request _ ctx _ _ w) as [[res [err |]] w']; cbn [fst snd].
  - destruct (GoStrings.Contains (Error err) "not exist"); reflexivity.
  - reflexivity.
Qed.

Lemma ServiceError_not_exist (code : Z) (msg : string) :
  GoStrings.Contains msg "not exist" = true ->
  GoStrings.Contains (Error (ServiceError code msg)) "not exist" = true.
Proof.
  intros Hm. cbn [Error].
  do 3 apply Contains_append_left. exact Hm.
Qed.

(** C4 (amended): when the dispatch of the drop request returns a Service
    Error whose message contains [not exist], [DropDatabase] returns a nil
    error, and the error is its only result: its result list holds no
    value with an affected count.  A second call answered the same way
    returns the same. *)
Theorem DropDatabase_absent_twice (i : Engine.implementerDatabase) (ctx : GoContext)
    (name : string) (w w1 w2 : W) (res1 res2 : DropRes)
    (code1 code2 : Z) (msg1 msg2 : string) :
  Sdk.Request (Engine.implementerDatabase_SdkClient i) ctx
    {| database.DropReq_Database := name |} (Json.zero : DropRes) w
  = ((res1, Some (ServiceError code1 msg1)), w1) ->
  GoStrings.Contains msg1 "not exist" = true ->
  Sdk.Request (Engine.implementerDatabase_SdkClient i) ctx
    {| database.DropReq_Database := name |} (Json.zero : DropRes) w1
  = ((res2, Some (ServiceError code2 msg2)), w2) ->
  GoStrings.Contains msg2 "not exist" = true ->
  Engine.DropDatabase (DropRes := DropRes) i ctx name w = (None, w1) /\
  Engine.DropDatabase (DropRes := DropRes) i ctx name w1 = (None, w2) /\
  Engine.DropDatabase_results (W := W)
    (fst (Engine.DropDatabase (DropRes := DropRes) i ctx name w)) = [Engine.of_error None] /\
  ~ Engine.carries_affected_count
      (Engine.DropDatabase_results (W := W)
         (fst (Engine.DropDatabase (DropRes := DropRes) i ctx name w))).
Proof.
  intros Hr1 Hm1 Hr2 Hm2.
  assert (Hd1 : Engine.DropDatabase (DropRes := DropRes) i ctx name w = (None, w1)).
  { rewrite DropDatabase_run, Hr1. cbn [fst snd].
    rewrite (ServiceError_not_exist code1 msg1 Hm1). reflexivity. }
  assert (Hd2 : Engine.DropDatabase (DropRes := DropRes) i ctx name w1 = (None, w2)).
  { rewrite DropDatabase_run, Hr2. cbn [fst snd].
    rewrite (ServiceError_not_exist code2 msg2 Hm2). reflexivity. }
  split; [exact Hd1 |]. split; [exact Hd2 |].
  rewrite Hd1. cbn [fst Engine.DropDatabase_results]. split; [reflexivity |].
  intros (v & n & [Hv | []] & Hn). subst v. discriminate Hn.
Qed.

(** Whatever the dispatch returns, the result list of [DropDatabase] holds
    the error alone. *)
Lemma DropDatabase_results_no_count (err : option error) :
  ~ Engine.carries_affected_count (Engine.DropDatabase_results (W := W) err).
Proof.
  intros (v & n & [Hv | []] & Hn). subst v. discriminate Hn.
Qed.

Lemma CreateDatabase_results_no_count (r : option Engine.Database * option error) :
  ~ Engine.carries_affected_count (Engine.CreateDatabase_results (W := W) r).
Proof.
  intros (v & n & [Hv | [Hv | []]] & Hn); subst v; discriminate Hn.
Qed.

(** The database-scoped alias operations in terms of their dispatch. *)
Lemma SetAlias_run (i : Engine.implementerAlias) (ctx : GoContext)
    (collectionName aliasName : string) (opt : option entity.SetAliasOption) (w : W) :
  Engine.SetAlias i ctx collectionName aliasName opt w =
  let r := Sdk.Request (Engine.implementerAlias_SdkClient i) ctx
             {| alias.SetReq_Database := Engine.databaseName i;
                alias.SetReq_Collection := collectionName;
                alias.SetReq_Alias := aliasName |}
             (Some Json.zero : option alias.SetRes.t) w in
  (match snd (fst r) with
   | Some err =>
       Sdk.Returns (Some {| entity.SetAliasResult.AffectedCount := 0 |}, Some err)
   | None =>
       match fst (fst r) with
       | Some res =>
           Sdk.Returns (Some {| entity.SetAliasResult.AffectedCount :=
                                  alias.SetRes.AffectedCount res |}, None)
       | None => Sdk.Panics
       end
   end, snd r).
Proof.
  unfold Engine.SetAlias, bind, ret. cbv zeta.
  destruct (Sdk.Request _ ctx _ _ w) as [[[res |] [err |]] w']; reflexivity.
Qed.

Lemma DeleteAlias_run (i : Engine.implementerAlias) (ctx : GoContext)
    (aliasName : string) (opt : option entity.DeleteAliasOption) (w : W) :
  Engine.DeleteAlias i ctx aliasName opt w =
  let r := Sdk.Request (Engine.implementerAlias_SdkClient i) ctx
             {| alias.DeleteReq_Database := Engine.databaseName i;
                alias.DeleteReq_Alias := aliasName |}
             (Some Json.zero : option alias.DeleteRes.t) w in
  (match snd (fst r) with
   | Some err =>
       Sdk.Returns (Some {| entity.DeleteAliasResult.AffectedCount := 0 |}, Some err)
   | None =>
       match fst (fst r) with
       | Some res =>
           Sdk.Returns (Some {| entity.DeleteAliasResult.AffectedCount :=
                                  alias.DeleteRes.AffectedCount res |}, None)
       | None => Sdk.Panics
       end
   end, snd r).
Proof.
  unfold Engine.DeleteAlias, bind, ret. cbv zeta.
  destruct (Sdk.Request _ ctx _ _ w) as [[[res |] [err |]] w']; reflexivity.
Qed.

(** C10: in the alias implementation without the gate, whenever the
    dispatch returns an error, [SetAlias] and [DeleteAlias] return that
    very error together with a result that is not nil and whose
    [AffectedCount] is 0; the count of the response is copied into the
    result only when the dispatch returns no error. *)
Theorem alias_dispatch_failure_returns_zero_result
    (i : Engine.implementerAlias) (ctx : GoContext)
    (collectionName aliasName : string)
    (optS : option entity.SetAliasOption) (optD : option entity.DeleteAliasOption)
    (w : W) :
  (forall res err w',
     Sdk.Request (Engine.implementerAlias_SdkClient i) ctx
       {| alias.SetReq_Database := Engine.databaseName i;
          alias.SetReq_Collection := collectionName;
          alias.SetReq_Alias := aliasName |}
       (Some Json.zero : option alias.SetRes.t) w = ((res, Some err), w') ->
     Engine.SetAlias i ctx collectionName aliasName optS w =
     (Sdk.Returns (Some {| entity.SetAliasResult.AffectedCount := 0 |}, Some err), w')) /\
  (forall res err w',
     Sdk.Request (Engine.implementerAlias_SdkClient i) ctx
       {| alias.DeleteReq_Database := Engine.databaseName i;
          alias.DeleteReq_Alias := aliasName |}
       (Some Json.zero : option alias.DeleteRes.t) w = ((res, Some err), w') ->
     Engine.DeleteAlias i ctx aliasName optD w =
     (Sdk.Returns (Some {| entity.DeleteAliasResult.AffectedCount := 0 |}, Some err), w')) /\
  (forall res w',
     Sdk.Request (Engine.implementerAlias_SdkClient i) ctx
       {| alias.SetReq_Database := Engine.databaseName i;
          alias.SetReq_Collection := collectionName;
          alias.SetReq_Alias := aliasName |}
       (Some Json.zero : option alias.SetRes.t) w = ((Some res, None), w') ->
     Engine.SetAlias i ctx collectionName aliasName optS w =
     (Sdk.Returns (Some {| entity.SetAliasResult.AffectedCount :=
                             alias.SetRes.AffectedCount res |}, None), w')) /\
  (forall res w',
     Sdk.Request (Engine.implementerAlias_SdkClient i) ctx
       {| alias.DeleteReq_Database := Engine.databaseName i;
          alias.DeleteReq_Alias := aliasName |}
       (Some Json.zero : option alias.DeleteRes.t) w = ((Some res, None), w') ->
     Engine.DeleteAlias i ctx aliasName optD w =
     (Sdk.Returns (Some {| entity.DeleteAliasResult.AffectedCount :=
                             alias.DeleteRes.AffectedCount res |}, None), w')).
Proof.
  repeat split; intros *; intros Hreq.
  - rewrite SetAlias_run. cbv zeta. rewrite Hreq. reflexivity.
  - rewrite DeleteAlias_run. cbv zeta. rewrite Hreq. reflexivity.
  - rewrite SetAlias_run. cbv zeta. rewrite Hreq. reflexivity.
  - rewrite DeleteAlias_run. cbv zeta. rewrite Hreq. reflexivity.
Qed.

End EngineProperties.

Section GatedProperties.

Context {W : Type}.

Context `{Api.Request database.CreateReq} `{Api.Request database.DropReq}
        {CreateRes DropRes : Type}
        `{Json.Zero CreateRes} `{Json.Unmarshaler CreateRes}
        `{Json.Zero DropRes} `{Json.Unmarshaler DropRes}
        `{Api.Request alias.SetReq} `{Api.Request alias.DeleteReq}
        `{Json.Unmarshaler alias.SetRes.t} `{Json.Unmarshaler alias.DeleteRes.t}.

Variable AIDbTypeError : error.

(** The gate: on an AI database nothing is asked of the [SdkClient]. *)
Lemma gated_SetAlias_AI (i : GatedAlias.implementerAlias) (ctx : GoContext)
    (collectionName aliasName : string)
    (opt : list (option entity.SetAliasOption)) (w : W) :
  entity.IsAIDatabase (GatedAlias.database i) = true ->
  GatedAlias.SetAlias AIDbTypeError i ctx collectionName aliasName opt w
  = (Sdk.Returns (None, Some AIDbTypeError), w).
Proof.
  intros Hk. unfold GatedAlias.SetAlias. rewrite Hk. reflexivity.
Qed.

Lemma gated_DeleteAlias_AI (i : GatedAlias.implementerAlias) (ctx : GoContext)
    (aliasName : string) (opt : list (option entity.DeleteAliasOption)) (w : W) :
  entity.IsAIDatabase (GatedAlias.database i) = true ->
  GatedAlias.DeleteAlias AIDbTypeError i ctx aliasName opt w
  = (Sdk.Returns (None, Some AIDbTypeError), w).
Proof.
  intros Hk. unfold GatedAlias.DeleteAlias. rewrite Hk. reflexivity.
Qed.

Lemma IsAIDatabase_kind (d : entity.Database) :
  entity.IsAIDatabase d = true <-> entity.databaseKind d = entity.AI.
Proof.
  unfold entity.IsAIDatabase. destruct (entity.databaseKind d); split;
    intros Hk; try reflexivity; discriminate Hk.
Qed.

(** C3: on a handle whose database kind is AI, [SetAlias] and
    [DeleteAlias] return a nil result and [AIDbTypeError], whatever the
    collection and alias names, and the world comes back as it was: the
    [SdkClient] of the handle, whichever it is, is not asked for anything,
    so nothing reaches the network. *)
Theorem gated_alias_refused_on_AI_database
    (i : GatedAlias.implementerAlias) (ctx : GoContext)
    (collectionName aliasName : string)
    (optS : list (option entity.SetAliasOption))
    (optD : list (option entity.DeleteAliasOption)) (w : W) :
  entity.databaseKind (GatedAlias.database i) = entity.AI ->
  GatedAlias.SetAlias AIDbTypeError i ctx collectionName aliasName optS w
  = (Sdk.Returns (None, Some AIDbTypeError), w) /\
  GatedAlias.DeleteAlias AIDbTypeError i ctx aliasName optD w
  = (Sdk.Returns (None, Some AIDbTypeError), w).
Proof.
  intros Hk. apply IsAIDatabase_kind in Hk. split.
  - now apply gated_SetAlias_AI.
  - now apply gated_DeleteAlias_AI.
Qed.

Lemma gated_SetAlias_ordinary (i : GatedAlias.implementerAlias) (ctx : GoContext)
    (collectionName aliasName : string)
    (opt : list (option entity.SetAliasOption)) (w : W) :
  entity.IsAIDatabase (GatedAlias.database i) = false ->
  GatedAlias.SetAlias AIDbTypeError i ctx collectionName aliasName opt w =
  Engine.SetAlias
    {| Engine.implementerAlias_SdkClient := GatedAlias.implementerAlias_SdkClient i;
       Engine.databaseName := entity.DatabaseName (GatedAlias.database i) |}
    ctx collectionName aliasName None w.
Proof.
  intros Hk. unfold GatedAlias.SetAlias, Engine.SetAlias. rewrite Hk. reflexivity.
Qed.

Lemma gated_DeleteAlias_ordinary (i : GatedAlias.implementerAlias) (ctx : GoContext)
    (aliasName : string) (opt : list (option entity.DeleteAliasOption)) (w : W) :
  entity.IsAIDatabase (GatedAlias.database i) = false ->
  GatedAlias.DeleteAlias AIDbTypeError i ctx aliasName opt w =
  Engine.DeleteAlias
    {| Engine.implementerAlias_SdkClient := GatedAlias.implementerAlias_SdkClient i;
       Engine.databaseName := entity.DatabaseName (GatedAlias.database i) |}
    ctx aliasName None w.
Proof.
  intros Hk. unfold GatedAlias.DeleteAlias, Engine.DeleteAlias. rewrite Hk. reflexivity.
Qed.

Lemma Engine_SetAlias_returns_result (i : Engine.implementerAlias) (ctx : GoContext)
    (collectionName aliasName : string) (opt : option entity.SetAliasOption) (w : W)
    (r : option entity.SetAliasResult.t * option error) :
  fst (Engine.SetAlias i ctx collectionName aliasName opt w) = Sdk.Returns r ->
  Engine.carries_affected_count (Engine.SetAlias_results (W := W) r) /\
  (snd r <> None -> fst r = Some {| entity.SetAliasResult.AffectedCount := 0 |}).
Proof.
  rewrite SetAlias_run. cbv zeta. cbn [fst].
  destruct (Sdk.Request _ ctx _ _ w) as [[[res |] [err |]] w']; cbn [fst snd];
    intros Hr; try discriminate Hr; injection Hr as <-; cbn [fst snd].
  - split; [| reflexivity].
    eexists. eexists. split; [left; reflexivity | reflexivity].
  - split; [| intros Hn; contradiction].
    eexists. eexists. split; [left; reflexivity | reflexivity].
  - split; [| reflexivity].
    eexists. eexists. split; [left; reflexivity | reflexivity].
Qed.

Lemma Engine_DeleteAlias_returns_result (i : Engine.implementerAlias) (ctx : GoContext)
    (aliasName : string) (opt : option entity.DeleteAliasOption) (w : W)
    (r : option entity.DeleteAliasResult.t * option error) :
  fst (Engine.DeleteAlias i ctx aliasName opt w) = Sdk.Returns r ->
  Engine.carries_affected_count (Engine.DeleteAlias_results (W := W) r) /\
  (snd r <> None -> fst r = Some {| entity.DeleteAliasResult.AffectedCount := 0 |}).
Proof.
  rewrite DeleteAlias_run. cbv zeta. cbn [fst].
  destruct (Sdk.Request _ ctx _ _ w) as [[[res |] [err |]] w']; cbn [fst snd];
    intros Hr; try discriminate Hr; injection Hr as <-; cbn [fst snd].
  - split; [| reflexivity].
    eexists. eexists. split; [left; reflexivity | reflexivity].
  - split; [| intros Hn; contradiction].
    eexists. eexists. split; [left; reflexivity | reflexivity].
  - split; [| reflexivity].
    eexists. eexists. split; [left; reflexivity | reflexivity].
Qed.

(** C8 (amended): of the mutating operations in the sources, set-alias and
    delete-alias, with or without the gate, hand their caller a result
    value that carries an affected count whenever they return and the gate
    does not refuse the call; the count is 0 when the dispatch fails, so a
    result is there even without a payload.  On an AI database the gated
    operations return a nil result with [AIDbTypeError].  [DropDatabase]
    returns an error alone and [CreateDatabase] a database handle and an
    error: their result lists hold no value with an affected count. *)
Theorem alias_operations_return_affected_count
    (e : Engine.implementerAlias) (g : GatedAlias.implementerAlias) (ctx : GoContext)
    (collectionName aliasName : string)
    (optS : option entity.SetAliasOption) (optD : option entity.DeleteAliasOption)
    (optsS : list (option entity.SetAliasOption))
    (optsD : list (option entity.DeleteAliasOption)) (w : W) :
  (forall r, fst (Engine.SetAlias e ctx collectionName aliasName optS w) = Sdk.Returns r ->
     Engine.carries_affected_count (Engine.SetAlias_results (W := W) r) /\
     (snd r <> None -> fst r = Some {| entity.SetAliasResult.AffectedCount := 0 |})) /\
  (forall r, fst (Engine.DeleteAlias e ctx aliasName optD w) = Sdk.Returns r ->
     Engine.carries_affected_count (Engine.DeleteAlias_results (W := W) r) /\
     (snd r <> None -> fst r = Some {| entity.DeleteAliasResult.AffectedCount := 0 |})) /\
  (forall r, entity.IsAIDatabase (GatedAlias.database g) = false ->
     fst (GatedAlias.SetAlias AIDbTypeError g ctx collectionName aliasName optsS w)
       = Sdk.Returns r ->
     Engine.carries_affected_count (Engine.SetAlias_results (W := W) r) /\
     (snd r <> None -> fst r = Some {| entity.SetAliasResult.AffectedCount := 0 |})) /\
  (forall r, entity.IsAIDatabase (GatedAlias.database g) = false ->
     fst (GatedAlias.DeleteAlias AIDbTypeError g ctx aliasName optsD w) = Sdk.Returns r ->
     Engine.carries_affected_count (Engine.DeleteAlias_results (W := W) r) /\
     (snd r <> None -> fst r = Some {| entity.DeleteAliasResult.AffectedCount := 0 |})) /\
  (entity.IsAIDatabase (GatedAlias.database g) = true ->
     fst (GatedAlias.SetAlias AIDbTypeError g ctx collectionName aliasName optsS w)
       = Sdk.Returns (None, Some AIDbTypeError) /\
     fst (GatedAlias.DeleteAlias AIDbTypeError g ctx aliasName optsD w)
       = Sdk.Returns (None, Some AIDbTypeError)) /\
  (forall (i : Engine.implementerDatabase) (name : string),
     ~ Engine.carries_affected_count
         (Engine.DropDatabase_results (W := W)
            (fst (Engine.DropDatabase (DropRes := DropRes) i ctx name w)))) /\
  (forall (i : Engine.implementerDatabase) (name : string),
     ~ Engine.carries_affected_count
         (Engine.CreateDatabase_results
            (fst (Engine.CreateDatabase (CreateRes := CreateRes) i ctx name w)))).
Proof.
  split; [| split; [| split; [| split; [| split; [| split]]]]].
  - intros r. apply Engine_SetAlias_returns_result.
  - intros r. apply Engine_DeleteAlias_returns_result.
  - intros r Hk. rewrite (gated_SetAlias_ordinary g ctx collectionName aliasName optsS w Hk).
    apply Engine_SetAlias_returns_result.
  - intros r Hk. rewrite (gated_DeleteAlias_ordinary g ctx aliasName optsD w Hk).
    apply Engine_DeleteAlias_returns_result.
  - intros Hk. rewrite gated_SetAlias_AI, gated_DeleteAlias_AI by exact Hk.
    split; reflexivity.
  - intros i name. apply DropDatabase_results_no_count.
  - intros i name. apply CreateDatabase_results_no_count.
Qed.

End GatedProperties.

(** C2: whenever the envelope of a 2xx response decodes with a code other
    than zero, [handleResponse] returns the Service Error that carries that
    code and message, and the output target comes back as it was given.  In
    particular the body of scenario E gives a Service Error with the message
    [collection not exist], and a target at its zero value stays there. *)
Theorem handleResponse_service_error_leaves_target :
  (forall (R : Http.Runtime) (Rs : Type) (U : Json.Unmarshaler Rs)
          (c : tcvectordb.Client) (ctx : GoContext) (status : Z) (body : string)
          (out : Rs) (w : Http.World) (envelope : tcvectordb.CommmonResponse),
     tcvectordb.is_2xx status ->
     Json.Unmarshal body (Json.zero : tcvectordb.CommmonResponse) = (envelope, None) ->
     tcvectordb.Code envelope <> 0 ->
     fst (tcvectordb.handleResponse c ctx
            {| Http.StatusCode := status; Http.Body := Http.ReadOk body |} out w)
     = (out, Some (ServiceError (tcvectordb.Code envelope) (tcvectordb.Msg envelope)))) /\
  (forall (R : Http.Runtime) (Rs : Type) (Zr : Json.Zero Rs) (U : Json.Unmarshaler Rs)
          (c : tcvectordb.Client) (ctx : GoContext) (status : Z) (w : Http.World),
     tcvectordb.is_2xx status ->
     fst (tcvectordb.handleResponse c ctx
            {| Http.StatusCode := status;
               Http.Body :=
                 Http.ReadOk (TestTransport.quoted "{'code':1,'msg':'collection not exist'}") |}
            (Json.zero : Rs) w)
     = (Json.zero, Some (ServiceError 1 "collection not exist"))).
Proof.
  split.
  - intros. now apply handleResponse_service_error_general.
  - intros R Rs Zr U c ctx status w H2.
    apply (handleResponse_service_error_general c ctx status _ _ w
             {| tcvectordb.Code := 1; tcvectordb.Msg := "collection not exist" |} H2).
    + vm_compute. reflexivity.
    + cbn. discriminate.
Qed.

(** ** Scenarios on the test transport *)

Section Scenarios.

Import TestTransport.

(** The test configuration of src/example_test.go: two fields set, two left
    to the defaults. *)
Lemma optionMerge_never_zero_and_idempotent_witness :
  let o := {| tcvectordb.Timeout := 0;
              tcvectordb.MaxIdldConnPerHost := 50;
              tcvectordb.IdleConnTimeout := 30 * tcvectordb.time_Second;
              tcvectordb.ReadConsistency := "";
              tcvectordb.Transport := None |} in
  tcvectordb.fully_specified (tcvectordb.optionMerge o) /\
  (tcvectordb.fully_specified o -> tcvectordb.optionMerge o = o) /\
  tcvectordb.optionMerge (tcvectordb.optionMerge o) = tcvectordb.optionMerge o.
Proof.
  apply (@optionMerge_never_zero_and_idempotent TestTransport.constants).
  cbn. discriminate.
Defined.

(** C1, a counterexample to the claim as stated: a 2xx response whose body
    is valid JSON with the code field 5 and a number for the message.  The
    claim makes it a Service Error carrying code 5; the envelope does not
    decode (the code field is stored, the message is refused), and
    [handleResponse] returns the wrapped decode error, a Malformed Response
    Error. *)
Lemma handleResponse_code_5_is_not_service_error :
  let body := TestTransport.quoted "{'code':5,'msg':7}" in
  let res := {| Http.StatusCode := 200; Http.Body := Http.ReadOk body |} in
  let r := fst (tcvectordb.handleResponse TestTransport.client context_TODO res
                  (Json.zero : TestTransport.CountRes) (TestTransport.fresh [])) in
  tcvectordb.is_2xx 200 /\
  Json.Valid body = true /\
  tcvectordb.Code (fst (Json.Unmarshal body (Json.zero : tcvectordb.CommmonResponse))) = 5 /\
  r = (Json.zero,
       Some (UnmarshalFailed
               (Json.UnmarshalTypeError "number" "string" "CommmonResponse" "msg") body)) /\
  (forall msg, snd r <> Some (ServiceError 5 msg)) /\
  (forall e, snd r = Some e -> class_of e = MalformedResponseClass).
Proof.
  cbv zeta. split; [unfold tcvectordb.is_2xx; lia |].
  split; [vm_compute; reflexivity |].
  split; [vm_compute; reflexivity |].
  assert (Hr : fst (tcvectordb.handleResponse TestTransport.client context_TODO
                      {| Http.StatusCode := 200;
                         Http.Body := Http.ReadOk (TestTransport.quoted "{'code':5,'msg':7}") |}
                      (Json.zero : TestTransport.CountRes) (TestTransport.fresh []))
               = (Json.zero,
                  Some (UnmarshalFailed
                          (Json.UnmarshalTypeError "number" "string" "CommmonResponse" "msg")
                          (TestTransport.quoted "{'code':5,'msg':7}"))))
    by (vm_compute; reflexivity).
  rewrite Hr. cbn [snd]. split; [reflexivity |]. split.
  - intros msg Hc. discriminate Hc.
  - intros e He. injection He as <-. reflexivity.
Qed.

(** Scenario E on the test transport, with a result struct that has an
    affected count. *)
Lemma handleResponse_service_error_leaves_target_witness :
  fst (tcvectordb.handleResponse TestTransport.client context_Background
         {| Http.StatusCode := 200;
            Http.Body :=
              Http.ReadOk (TestTransport.quoted "{'code':1,'msg':'collection not exist'}") |}
         (Json.zero : TestTransport.CountRes) (TestTransport.fresh []))
  = (Json.zero, Some (ServiceError 1 "collection not exist")).
Proof.
  apply (proj1 handleResponse_service_error_leaves_target TestTransport.runtime
           TestTransport.CountRes _ TestTransport.client context_Background 200 _ _ _
           {| tcvectordb.Code := 1; tcvectordb.Msg := "collection not exist" |}).
  - unfold tcvectordb.is_2xx. lia.
  - vm_compute. reflexivity.
  - cbn. discriminate.
Defined.

(** Dropping a database the service does not know, twice over: both calls
    return nil and each makes one round trip. *)
Lemma DropDatabase_absent_twice_witness :
  let i := {| Engine.implementerDatabase_SdkClient := Sdk.of_Client TestTransport.client |} in
  let gone := TestTransport.answer 200
                (TestTransport.quoted "{'code':1,'msg':'database dbtest1 not exist'}") in
  let req := {| database.DropReq_Database := "dbtest1" |} in
  let w := TestTransport.fresh [gone; gone] in
  let w1 := snd (tcvectordb.Request TestTransport.client context_Background req
                   (Json.zero : TestTransport.CountRes) w) in
  let w2 := snd (tcvectordb.Request TestTransport.client context_Background req
                   (Json.zero : TestTransport.CountRes) w1) in
  (TestTransport.calls (Http.remote w1) = 1%N /\
   TestTransport.calls (Http.remote w2) = 2%N) /\
  Engine.DropDatabase (DropRes := TestTransport.CountRes) i context_Background "dbtest1" w
  = (None, w1) /\
  Engine.DropDatabase (DropRes := TestTransport.CountRes) i context_Background "dbtest1" w1
  = (None, w2) /\
  Engine.DropDatabase_results (W := Http.World)
    (fst (Engine.DropDatabase (DropRes := TestTransport.CountRes) i
            context_Background "dbtest1" w)) = [Engine.of_error None] /\
  ~ Engine.carries_affected_count
      (Engine.DropDatabase_results (W := Http.World)
         (fst (Engine.DropDatabase (DropRes := TestTransport.CountRes) i
                 context_Background "dbtest1" w))).
Proof.
  cbv zeta. split; [split; vm_compute; reflexivity |].
  apply (DropDatabase_absent_twice (DropRes := TestTransport.CountRes)
           {| Engine.implementerDatabase_SdkClient := Sdk.of_Client TestTransport.client |}
           context_Background "dbtest1" _ _ _ Json.zero Json.zero 1 1
           "database dbtest1 not exist" "database dbtest1 not exist").
  - vm_compute. reflexivity.
  - vm_compute. reflexivity.
  - vm_compute. reflexivity.
  - vm_compute. reflexivity.
Defined.

(** C4, a counterexample to the claim as stated: the service answers the
    drop request with a Service Error whose message contains [not exist].
    [DropDatabase] returns the nil error and nothing else: no value of its
    result list carries an affected count, 0 or other. *)
Lemma DropDatabase_returns_no_affected_count :
  let i := {| Engine.implementerDatabase_SdkClient := Sdk.of_Client TestTransport.client |} in
  let gone := TestTransport.answer 200
                (TestTransport.quoted "{'code':1,'msg':'database dbtest1 not exist'}") in
  let req := {| database.DropReq_Database := "dbtest1" |} in
  let w := TestTransport.fresh [gone] in
  let results :=
    Engine.DropDatabase_results (W := Http.World)
      (fst (Engine.DropDatabase (DropRes := TestTransport.CountRes) i
              context_Background "dbtest1" w)) in
  snd (fst (tcvectordb.Request TestTransport.client context_Background req
              (Json.zero : TestTransport.CountRes) w))
  = Some (ServiceError 1 "database dbtest1 not exist") /\
  results = [Engine.of_error None] /\
  ~ (exists v, In v results /\ Engine.affected_count v = Some 0).
Proof.
  cbv zeta. split; [vm_compute; reflexivity |].
  assert (Hr : Engine.DropDatabase_results (W := Http.World)
                 (fst (Engine.DropDatabase (DropRes := TestTransport.CountRes)
                         {| Engine.implementerDatabase_SdkClient :=
                              Sdk.of_Client TestTransport.client |}
                         context_Background "dbtest1"
                         (TestTransport.fresh
                            [TestTransport.answer 200
                               (TestTransport.quoted
                                  "{'code':1,'msg':'database dbtest1 not exist'}")])))
               = [Engine.of_error None]) by (vm_compute; reflexivity).
  rewrite Hr. split; [reflexivity |].
  intros (v & [Hv | []] & Hn). subst v. discriminate Hn.
Qed.

(** C8, a counterexample to the claim as stated.  The gated [SetAlias] on
    an AI database returns a nil result; [DropDatabase], answered with
    success and an affected count of 1, returns the nil error alone.  In
    neither case does the caller receive a value that carries an affected
    count. *)
Lemma mutating_operations_without_affected_count :
  let g := {| GatedAlias.implementerAlias_SdkClient := Sdk.of_Client TestTransport.client;
              GatedAlias.database :=
                {| entity.DatabaseName := "ai_db"; entity.databaseKind := entity.AI |} |} in
  let i := {| Engine.implementerDatabase_SdkClient := Sdk.of_Client TestTransport.client |} in
  let dropped := TestTransport.answer 200
                   (TestTransport.quoted "{'code':0,'msg':'operation success','affectedCount':1}") in
  (fst (GatedAlias.SetAlias TestTransport.AIDbTypeError g context_Background
          "col1" "alias-col1" [] (TestTransport.fresh []))
   = Sdk.Returns (None, Some TestTransport.AIDbTypeError) /\
   ~ Engine.carries_affected_count
       (Engine.SetAlias_results (W := Http.World) (None, Some TestTransport.AIDbTypeError))) /\
  (Engine.DropDatabase (DropRes := TestTransport.CountRes) i context_Background "dbtest1"
     (TestTransport.fresh [dropped])
   = (None,
      snd (tcvectordb.Request TestTransport.client context_Background
             {| database.DropReq_Database := "dbtest1" |}
             (Json.zero : TestTransport.CountRes) (TestTransport.fresh [dropped]))) /\
   ~ Engine.carries_affected_count
       (Engine.DropDatabase_results (W := Http.World) None)).
Proof.
  cbv zeta. split; split.
  - reflexivity.
  - intros (v & n & [Hv | [Hv | []]] & Hn); subst v; discriminate Hn.
  - vm_compute. reflexivity.
  - apply DropDatabase_results_no_count.
Qed.

(** A handle of an AI database on the test transport: both operations are
    refused and the call counter of the transport stays at 0. *)
Lemma gated_alias_refused_on_AI_database_witness :
  let g := {| GatedAlias.implementerAlias_SdkClient := Sdk.of_Client TestTransport.client;
              GatedAlias.database :=
                {| entity.DatabaseName := "ai_db"; entity.databaseKind := entity.AI |} |} in
  let w := TestTransport.fresh
             [TestTransport.answer 200 (TestTransport.quoted "{'code':0,'affectedCount':1}")] in
  TestTransport.calls (Http.remote w) = 0%N /\
  GatedAlias.SetAlias TestTransport.AIDbTypeError g context_Background
    "col1" "alias-col1" [] w
  = (Sdk.Returns (None, Some TestTransport.AIDbTypeError), w) /\
  GatedAlias.DeleteAlias TestTransport.AIDbTypeError g context_Background
    "alias-col1" [] w
  = (Sdk.Returns (None, Some TestTransport.AIDbTypeError), w).
Proof.
  cbv zeta. split; [reflexivity |].
  apply (gated_alias_refused_on_AI_database (W := Http.World) TestTransport.AIDbTypeError).
  reflexivity.
Defined.

(** The service refuses to set an alias: the result is there, with an
    affected count of 0, beside the Service Error. *)
Lemma alias_dispatch_failure_returns_zero_result_witness :
  let e := {| Engine.implementerAlias_SdkClient := Sdk.of_Client TestTransport.client;
              Engine.databaseName := "dbtest1" |} in
  let w := TestTransport.fresh
             [TestTransport.answer 200
                (TestTransport.quoted "{'code':1,'msg':'collection not exist'}")] in
  fst (Engine.SetAlias e context_Background "col1" "alias-col1" None w)
  = Sdk.Returns (Some {| entity.SetAliasResult.AffectedCount := 0 |},
                 Some (ServiceError 1 "collection not exist")).
Proof.
  cbv zeta.
  rewrite (proj1 (alias_dispatch_failure_returns_zero_result (W := Http.World)
                    {| Engine.implementerAlias_SdkClient := Sdk.of_Client TestTransport.client;
                       Engine.databaseName := "dbtest1" |}
                    context_Background "col1" "alias-col1" None None
                    (TestTransport.fresh
                       [TestTransport.answer 200
                          (TestTransport.quoted "{'code':1,'msg':'collection not exist'}")]))
             (Some Json.zero) (ServiceError 1 "collection not exist")
             (snd (tcvectordb.Request TestTransport.client context_Background
                     {| alias.SetReq_Database := "dbtest1";
                        alias.SetReq_Collection := "col1";
                        alias.SetReq_Alias := "alias-col1" |}
                     (Some Json.zero : option alias.SetRes.t)
                     (TestTransport.fresh
                        [TestTransport.answer 200
                           (TestTransport.quoted "{'code':1,'msg':'collection not exist'}")])))).
  - reflexivity.
  - vm_compute. reflexivity.
Defined.

(** A 200 response with code 0 and an affected count: success, and the
    body decoded into the result. *)
Lemma handleResponse_classification_witness :
  fst (tcvectordb.handleResponse client context_Background
         {| Http.StatusCode := 200;
            Http.Body := Http.ReadOk (quoted "{'code':0,'msg':'ok','affectedCount':3}") |}
         (Json.zero : CountRes) (fresh []))
  = ({| CountRes_Code := 0; CountRes_Msg := "ok"; CountRes_AffectedCount := 3 |}, None).
Proof.
  destruct (handleResponse_classification (Rs := CountRes) client context_Background 200
              (quoted "{'code':0,'msg':'ok','affectedCount':3}") Json.zero (fresh []))
    as (_ & _ & _ & _ & _ & Hiff & Hfst & _).
  assert (Hs : snd (fst (tcvectordb.handleResponse client context_Background
                           {| Http.StatusCode := 200;
                              Http.Body :=
                                Http.ReadOk (quoted "{'code':0,'msg':'ok','affectedCount':3}") |}
                           (Json.zero : CountRes) (fresh []))) = None).
  { apply Hiff. split; [unfold tcvectordb.is_2xx; lia |].
    repeat split; vm_compute; reflexivity. }
  specialize (Hfst Hs).
  rewrite (surjective_pairing (fst (tcvectordb.handleResponse _ _ _ _ _))), Hs, Hfst.
  vm_compute. reflexivity.
Defined.

(** The configuration of src/example_test.go: the two fields left unset
    get their defaults, the two fields set keep their values. *)
Lemma optionMerge_defaults_witness :
  tcvectordb.optionMerge
    {| tcvectordb.Timeout := 0;
       tcvectordb.MaxIdldConnPerHost := 50;
       tcvectordb.IdleConnTimeout := 30 * tcvectordb.time_Second;
       tcvectordb.ReadConsistency := "";
       tcvectordb.Transport := None |}
  = {| tcvectordb.Timeout := 5000000000;
       tcvectordb.MaxIdldConnPerHost := 50;
       tcvectordb.IdleConnTimeout := 30000000000;
       tcvectordb.ReadConsistency := "eventualConsistency";
       tcvectordb.Transport := None |}.
Proof.
  pose proof (optionMerge_defaults
                {| tcvectordb.Timeout := 0;
                   tcvectordb.MaxIdldConnPerHost := 50;
                   tcvectordb.IdleConnTimeout := 30 * tcvectordb.time_Second;
                   tcvectordb.ReadConsistency := "";
                   tcvectordb.Transport := None |})
    as (Ht & _ & _ & Hm & _ & Hi & Hr & _ & Htr).
  specialize (Ht eq_refl). specialize (Hr eq_refl).
  specialize (Hm ltac:(cbn; discriminate)). specialize (Hi ltac:(cbn; discriminate)).
  destruct (tcvectordb.optionMerge _) as [t m i r tr].
  cbn in Ht, Hm, Hi, Hr, Htr. subst. reflexivity.
Defined.

(** Scenario A constructs its client; a URL with another scheme is
    refused. *)
Lemma newClient_construction_error_iff_witness :
  (exists c, fst (tcvectordb.NewClient "http://host:8100" "root" "k" None) = Some c /\
             tcvectordb.url c = "http://host:8100" /\ tcvectordb.username c = "root" /\
             tcvectordb.key c = "k") /\
  (exists e, snd (tcvectordb.NewClient "ftp://host:8100" "root" "k" None) = Some e).
Proof.
  split.
  - apply (newClient_construction_error_iff "http://host:8100" "root" "k"
             tcvectordb.defaultOption None).
    reflexivity.
  - apply (newClient_construction_error_iff "ftp://host:8100" "root" "k"
             tcvectordb.defaultOption None).
    left. reflexivity.
Defined.

(** Setting an alias with success: the count of the response is in the
    result. *)
Lemma alias_operations_return_affected_count_witness :
  let e := {| Engine.implementerAlias_SdkClient := Sdk.of_Client client;
              Engine.databaseName := "dbtest1" |} in
  let w := fresh [answer 200 (quoted "{'code':0,'msg':'ok','affectedCount':1}")] in
  fst (Engine.SetAlias e context_Background "col1" "alias-col1" None w)
  = Sdk.Returns (Some {| entity.SetAliasResult.AffectedCount := 1 |}, None) /\
  Engine.carries_affected_count
    (Engine.SetAlias_results (W := Http.World)
       (Some {| entity.SetAliasResult.AffectedCount := 1 |}, None)).
Proof.
  cbv zeta.
  assert (Hr : fst (Engine.SetAlias
                      {| Engine.implementerAlias_SdkClient := Sdk.of_Client client;
                         Engine.databaseName := "dbtest1" |}
                      context_Background "col1" "alias-col1" None
                      (fresh [answer 200 (quoted "{'code':0,'msg':'ok','affectedCount':1}")]))
               = Sdk.Returns (Some {| entity.SetAliasResult.AffectedCount := 1 |}, None))
    by (vm_compute; reflexivity).
  split; [exact Hr |].
  refine (proj1 (proj1 (alias_operations_return_affected_count (W := Http.World)
           (CreateRes := CountRes) (DropRes := CountRes) AIDbTypeError
           {| Engine.implementerAlias_SdkClient := Sdk.of_Client client;
              Engine.databaseName := "dbtest1" |}
           {| GatedAlias.implementerAlias_SdkClient := Sdk.of_Client client;
              GatedAlias.database :=
                {| entity.DatabaseName := "dbtest1"; entity.databaseKind := entity.Ordinary |} |}
           context_Background "col1" "alias-col1" None None [] []
           (fresh [answer 200 (quoted "{'code':0,'msg':'ok','affectedCount':1}")]))
                 _ Hr)).
Defined.

(** Dropping a database with the debug flag set and cleared: the same
    Service Error, and two records in the log when the flag is set. *)
Lemma debug_flag_only_adds_log_records_witness :
  let req := {| database.DropReq_Database := "dbtest1" |} in
  let w := fresh [answer 200 (quoted "{'code':1,'msg':'database dbtest1 not exist'}")] in
  fst (tcvectordb.Request (tcvectordb.Debug client true) context_Background req
         (Json.zero : CountRes) w)
  = fst (tcvectordb.Request (tcvectordb.Debug client false) context_Background req
           (Json.zero : CountRes) w) /\
  Http.logged (snd (tcvectordb.Request (tcvectordb.Debug client false) context_Background req
                      (Json.zero : CountRes) w)) = [] /\
  List.length
    (Http.logged (snd (tcvectordb.Request (tcvectordb.Debug client true) context_Background
                         req (Json.zero : CountRes) w))) = 2%nat.
Proof.
  cbv zeta.
  destruct (debug_flag_only_adds_log_records client context_Background
              {| database.DropReq_Database := "dbtest1" |} (Json.zero : CountRes)
              {| Http.StatusCode := 200; Http.Body := Http.ReadOk "" |}
              (fresh [answer 200 (quoted "{'code':1,'msg':'database dbtest1 not exist'}")]))
    as ((Hres & _ & Hoff & _) & _).
  split; [exact Hres |]. split; [exact Hoff |].
  vm_compute. reflexivity.
Defined.
End Scenarios.

(** * Further properties of the code *)

(** ** Texts of errors *)

Lemma prefix_iff_append (p s : string) :
  String.prefix p s = true <-> exists b, s = p ++ b.
Proof.
  revert s. induction p as [| c p IH]; intros s; cbn.
  - split; [intros _; exists s; reflexivity | intros _; destruct s; reflexivity].
  - destruct s as [| x s].
    + split; [discriminate | intros (b & Hb); discriminate Hb].
    + cbn [String.prefix append]. destruct (ascii_dec c x) as [-> | Hne].
      * rewrite IH. split; intros (b & Hb); exists b.
        -- now rewrite Hb.
        -- now injection Hb.
      * split; [discriminate |]. intros (b & Hb). injection Hb as Hx _. congruence.
Qed.

(** [Contains] finds exactly the occurrences of the pattern. *)
Lemma Contains_iff_occurrence (s p : string) :
  GoStrings.Contains s p = true <-> exists a b, s = a ++ p ++ b.
Proof.
  induction s as [| x s IH]; cbn [GoStrings.Contains].
  - rewrite orb_false_r, prefix_iff_append. split.
    + intros (b & Hb). exists "", b. exact Hb.
    + intros (a & b & Hab). destruct a; [exists b; exact Hab |]. discriminate Hab.
  - rewrite orb_true_iff, prefix_iff_append, IH. split.
    + intros [(b & Hb) | (a & b & Hab)].
      * exists "", b. exact Hb.
      * exists (String x a), b. cbn. now rewrite Hab.
    + intros (a & b & Hab). destruct a as [| y a].
      * left. exists b. exact Hab.
      * right. cbn in Hab. injection Hab as _ Hs. exists a, b. exact Hs.
Qed.

Lemma append_assoc_string (a b c : string) : (a ++ b) ++ c = a ++ b ++ c.
Proof. induction a as [| x a IH]; cbn; [reflexivity | now rewrite IH]. Qed.

Lemma Contains_append_right (s b p : string) :
  GoStrings.Contains s p = true -> GoStrings.Contains (s ++ b) p = true.
Proof.
  rewrite !Contains_iff_occurrence. intros (a & t & Hs). exists a, (t ++ b).
  rewrite Hs, !append_assoc_string. reflexivity.
Qed.

Lemma absent_append (c : ascii) (a b : string) :
  absent c a -> absent c b -> absent c (a ++ b).
Proof. induction a as [| x a IH]; cbn; [auto | intros (Hx & Ha) Hb; auto]. Qed.

(** A pattern cannot begin inside a text that lacks its first character. *)
Lemma Contains_skip (c : ascii) (p a s : string) :
  absent c a ->
  GoStrings.Contains (a ++ s) (String c p) = GoStrings.Contains s (String c p).
Proof.
  induction a as [| x a IH]; intros Ha; [reflexivity |].
  destruct Ha as (Hx & Ha). change (String x a ++ s) with (String x (a ++ s)).
  cbn [GoStrings.Contains String.prefix].
  destruct (ascii_dec c x) as [-> | _]; [contradiction |].
  cbn [orb]. apply IH. exact Ha.
Qed.

Lemma absent_n_digits (d : Decimal.uint) : absent "n" (NilEmpty.string_of_uint d).
Proof. induction d; cbn; repeat split; try assumption; discriminate. Qed.

Lemma absent_n_Itoa (n : Z) : absent "n" (GoStrings.Itoa n).
Proof.
  unfold GoStrings.Itoa. destruct (Z.to_int n) as [d | d]; cbn.
  - destruct d; cbn; repeat split; try discriminate; apply absent_n_digits.
  - split; [discriminate |].
    destruct d; cbn; repeat split; try discriminate; apply absent_n_digits.
Qed.

(** The text of a Service Error holds [not exist] exactly when its message
    does: the code and the words around it cannot supply the pattern. *)
Lemma ServiceError_text_not_exist (code : Z) (msg : string) :
  GoStrings.Contains (Error (ServiceError code msg)) "not exist"
  = GoStrings.Contains msg "not exist".
Proof.
  cbn [Error].
  rewrite <- !append_assoc_string.
  apply (Contains_skip "n" "ot exist").
  repeat apply absent_append; try apply absent_n_Itoa; cbn; repeat split; discriminate.
Qed.

(** ** Construction and reconfiguration of the client *)

Section ClientProperties.

Context `{Api.Constants}.

Import tcvectordb.

Lemma optionMerge_defaultOption : optionMerge defaultOption = defaultOption.
Proof.
  rewrite optionMerge_eq. unfold defaultOption, time_Minute, time_Second. cbn.
  destruct (String.eqb Api.EventualConsistency ""); reflexivity.
Qed.

Lemma optionMerge_Transport (o : ClientOption) :
  Transport (optionMerge o) = Transport o.
Proof. rewrite optionMerge_eq. reflexivity. Qed.

Lemma newClient_merged (url username key : string) (o : ClientOption) :
  newClient url username key (optionMerge o) = newClient url username key o.
Proof.
  unfold newClient. rewrite optionMerge_idempotent, optionMerge_Transport. reflexivity.
Qed.

(** X1: [NewClient] merges the option with the defaults and [newClient]
    merges it again; the second merge changes nothing, so [NewClient] with
    an option is [newClient] with that option, and [NewClient] with a nil
    option is [newClient] with [defaultOption]. *)
Theorem NewClient_is_newClient (url username key : string) (o : ClientOption) :
  NewClient url username key (Some o) = newClient url username key o /\
  NewClient url username key None = newClient url username key defaultOption.
Proof.
  unfold NewClient. split; apply newClient_merged.
Qed.

(** X2: a nil option pointer, a pointer to [defaultOption] and a pointer
    to an option struct with every field at its zero value construct the
    same client (or fail with the same error). *)
Theorem NewClient_nil_default_zero (url username key : string) :
  NewClient url username key None = NewClient url username key (Some defaultOption) /\
  NewClient url username key None =
  NewClient url username key
    (Some {| Timeout := 0; MaxIdldConnPerHost := 0; IdleConnTimeout := 0;
             ReadConsistency := ""; Transport := None |}).
Proof.
  unfold NewClient. split; [reflexivity |].
  rewrite !newClient_merged. unfold newClient.
  rewrite optionMerge_defaultOption.
  replace (optionMerge {| Timeout := 0; MaxIdldConnPerHost := 0; IdleConnTimeout := 0;
                          ReadConsistency := ""; Transport := None |})
    with defaultOption by (rewrite optionMerge_eq; reflexivity).
  reflexivity.
Qed.

Lemma newClient_success_fields (url username key : string) (opt : ClientOption)
    (c : Client) :
  fst (newClient url username key opt) = Some c ->
  clientOption c = optionMerge opt /\
  debug c = false /\
  Http.Timeout (cli c) = Timeout (optionMerge opt) /\
  (forall rt, Transport opt = Some rt -> Http.Transport (cli c) = rt) /\
  (Transport opt = None ->
   Http.Transport (cli c) =
   Http.HttpTransport true (MaxIdldConnPerHost (optionMerge opt))
     (IdleConnTimeout (optionMerge opt))).
Proof.
  unfold newClient.
  destruct (negb (GoStrings.HasPrefix url "http")); [discriminate |].
  destruct (String.eqb username "" || String.eqb key ""); [discriminate |].
  cbn [fst]. intros Hc. injection Hc as <-. cbn.
  repeat split.
  - intros rt Hrt. rewrite Hrt. reflexivity.
  - intros Hrt. rewrite Hrt. reflexivity.
Qed.

(** X3: the [http.Client] of a constructed client.  Its timeout is the
    resolved request timeout, never the caller's raw value.  A transport the
    caller supplies is used as it is, and then the pool settings of the
    option play no part; without one the client builds an [http.Transport]
    that skips certificate verification and takes its idle-connection
    settings from the resolved option.  The client starts with the debug
    mode off and reports the resolved option. *)
Theorem newClient_http_client (url username key : string) (opt : ClientOption)
    (c : Client) :
  fst (newClient url username key opt) = Some c ->
  Options c = optionMerge opt /\
  debug c = false /\
  Http.Timeout (cli c) = Timeout (optionMerge opt) /\
  Http.Timeout (cli c) <> 0 /\
  (forall rt, Transport opt = Some rt -> Http.Transport (cli c) = rt) /\
  (Transport opt = None ->
   exists idle_per_host idle_timeout,
     Http.Transport (cli c) = Http.HttpTransport true idle_per_host idle_timeout /\
     idle_per_host = MaxIdldConnPerHost (optionMerge opt) /\ idle_per_host <> 0 /\
     idle_timeout = IdleConnTimeout (optionMerge opt) /\ idle_timeout <> 0).
Proof.
  intros Hc.
  destruct (newClient_success_fields url username key opt c Hc) as (Ho & Hd & Ht & Hrt & Hn).
  assert (Hnz : Timeout (optionMerge opt) <> 0 /\ MaxIdldConnPerHost (optionMerge opt) <> 0 /\
                IdleConnTimeout (optionMerge opt) <> 0).
  { rewrite optionMerge_eq. cbn [Timeout MaxIdldConnPerHost IdleConnTimeout].
    repeat split.
    - destruct (Timeout opt =? 0) eqn:E; [discriminate | now apply Z.eqb_neq].
    - destruct (MaxIdldConnPerHost opt =? 0) eqn:E; [discriminate | now apply Z.eqb_neq].
    - destruct (IdleConnTimeout opt =? 0) eqn:E; [discriminate | now apply Z.eqb_neq]. }
  destruct Hnz as (Hz1 & Hz2 & Hz3).
  split; [exact Ho |]. split; [exact Hd |]. split; [exact Ht |].
  split; [rewrite Ht; exact Hz1 |]. split; [exact Hrt |].
  intros Hnone. eexists. eexists. split; [apply Hn; exact Hnone |].
  repeat split; assumption.
Qed.

(** X4: every client a caller can hold, whatever calls of [Debug] and
    [WithTimeout] it went through, has a URL that begins with [http] and
    credentials that are not empty, an [http.Client] whose timeout is the
    one [Options] reports, and idle-connection settings that are not zero.
    The request timeout itself is not protected: [WithTimeout] with 0
    stores 0, where construction would have put the default. *)
Theorem constructed_client_invariant (c : Client) :
  constructed c ->
  client_invariant c /\
  (Api.EventualConsistency <> "" -> ReadConsistency (Options c) <> "") /\
  (constructed (WithTimeout c 0) /\ Timeout (Options (WithTimeout c 0)) = 0 /\
   Http.Timeout (cli (WithTimeout c 0)) = 0).
Proof.
  intros Hc. split; [| split].
  - induction Hc as [url username key opt c Hn | c v Hc IH | c d Hc IH].
    + destruct (newClient_accepts url username key opt) as (c' & Hc' & Hu & Hn' & Hk & _ & Ho).
      * intros Hr. destruct (newClient_refuses url username key opt Hr) as (e & He & _).
        rewrite He in Hn. discriminate Hn.
      * rewrite Hc' in Hn. cbn [fst] in Hn. injection Hn as <-.
        assert (Hacc : ~ refused url username key).
        { intros Hr. destruct (newClient_refuses url username key opt Hr) as (e & He & _).
          rewrite He in Hc'. discriminate Hc'. }
        unfold refused in Hacc.
        destruct (newClient_success_fields url username key opt c') as (_ & _ & Ht & _).
        { rewrite Hc'. reflexivity. }
        unfold client_invariant. rewrite Hu, Hn', Hk, Ho, Ht.
        rewrite optionMerge_eq. cbn [MaxIdldConnPerHost IdleConnTimeout Timeout].
        repeat split.
        -- destruct (GoStrings.HasPrefix url "http"); [reflexivity | tauto].
        -- intros E. apply Hacc. right. left. exact E.
        -- intros E. apply Hacc. right. right. exact E.
        -- destruct (MaxIdldConnPerHost opt =? 0) eqn:E;
             [discriminate | now apply Z.eqb_neq].
        -- destruct (IdleConnTimeout opt =? 0) eqn:E;
             [discriminate | now apply Z.eqb_neq].
    + exact IH.
    + destruct IH as (A & B & C & D & E & F). unfold client_invariant.
      cbn. repeat split; assumption.
  - intros Hne. unfold Options.
    induction Hc as [url username key opt c Hn | c v Hc IH | c d Hc IH].
    + destruct (newClient_success_fields url username key opt c Hn) as (Ho & _).
      rewrite Ho. now apply optionMerge_fully_specified.
    + exact IH.
    + exact IH.
  - split; [now apply constructed_WithTimeout | split; reflexivity].
Qed.

(** X5: which error a refused construction returns.  The URL is tested
    first and by its first four bytes only: a URL that does not begin with
    the lower-case [http] gives the invalid-URL error, which carries the
    URL, whatever the credentials; a URL that begins with [http], followed
    by anything at all, is accepted, and then an empty account or key gives
    the empty-credentials error.  The option plays no part in the error. *)
Theorem newClient_which_error (url username key : string) (opt : ClientOption) :
  (snd (newClient url username key opt) = Some (InvalidURL url) <->
   ~ exists rest, url = "http" ++ rest) /\
  (snd (newClient url username key opt) = Some EmptyCredentials <->
   (exists rest, url = "http" ++ rest) /\ (username = "" \/ key = "")) /\
  (forall e, snd (newClient url username key opt) = Some e ->
     (e = InvalidURL url /\ Error e = "invalid url param with: " ++ url) \/
     e = EmptyCredentials) /\
  (forall opt', snd (newClient url username key opt')
                = snd (newClient url username key opt)).
Proof.
  unfold newClient, GoStrings.HasPrefix.
  destruct (String.prefix "http" url) eqn:Hp; cbn [negb].
  - assert (Hex : exists rest, url = "http" ++ rest) by (apply prefix_iff_append; exact Hp).
    destruct (String.eqb username "") eqn:Hu; cbn [orb].
    + apply String.eqb_eq in Hu. cbn [snd]. split; [| split; [| split]].
      * split; [discriminate | intros Hn; contradiction].
      * split; [intros _; split; [exact Hex | left; exact Hu] | reflexivity].
      * intros e He. injection He as <-. right. reflexivity.
      * reflexivity.
    + destruct (String.eqb key "") eqn:Hk; cbn [snd].
      * apply String.eqb_eq in Hk. split; [| split; [| split]].
        -- split; [discriminate | intros Hn; contradiction].
        -- split; [intros _; split; [exact Hex | right; exact Hk] | reflexivity].
        -- intros e He. injection He as <-. right. reflexivity.
        -- reflexivity.
      * apply String.eqb_neq in Hu, Hk. split; [| split; [| split]].
        -- split; [discriminate | intros Hn; contradiction].
        -- split; [discriminate |]. intros (_ & [Hc | Hc]); contradiction.
        -- intros e He. discriminate He.
        -- reflexivity.
  - assert (Hex : ~ exists rest, url = "http" ++ rest).
    { intros Hex. apply prefix_iff_append in Hex. congruence. }
    cbn [snd]. split; [| split; [| split]].
    + split; [intros _; exact Hex | reflexivity].
    + split; [discriminate | intros (Hc & _); contradiction].
    + intros e He. injection He as <-. left. split; reflexivity.
    + reflexivity.
Qed.

End ClientProperties.

(** ** One call of [Request] *)

Section RequestProperties.

Context `{Http.Runtime}.

Import tcvectordb.

(** [Request] once the request value is encoded and the HTTP request
    built. *)
Lemma Request_run {Rq Rs : Type} `{Api.Request Rq} `{Json.Unmarshaler Rs}
    (c : Client) (ctx : GoContext) (req : Rq) (res : Rs) (w : Http.World)
    (reqBody : string) (request : Http.HttpRequest) :
  Api.Encode req = inl reqBody ->
  Http.http_NewRequest (Http.strings_ToUpper (Api.Method req)) (url c ++ Api.Path req) reqBody
  = inl request ->
  Request c ctx req res w =
  let sent := Http.http_Do (cli c) (with_headers c request) (Http.remote w) in
  let asked :=
    if debug c
    then [debug_REQUEST (Api.Method req) (Api.Path req) (Http.strings_TrimSpace reqBody)]
    else [] in
  match fst sent with
  | inr err =>
      ((res, Some err),
       {| Http.remote := snd sent; Http.logged := (Http.logged w ++ asked)%list |})
  | inl response =>
      (fst (handleResponse c ctx response res w),
       {| Http.remote := snd sent;
          Http.logged :=
            (Http.logged w ++ asked ++
             match Http.Body response with
             | Http.ReadOk body =>
                 if debug c then [debug_RESPONSE (Http.StatusCode response) body] else []
             | Http.ReadErr _ => []
             end)%list |})
  end.
Proof.
  intros He Hn. unfold Request. rewrite He, Hn.
  unfold bind, log_Printf, ret, client_Do, with_headers. cbv zeta.
  destruct w as [rm lg]. cbn [Http.remote Http.logged].
  destruct (debug c) eqn:Hd; cbn [Http.remote Http.logged fst snd].
  - destruct (Http.http_Do _ _ rm) as [[response | err] rm']; cbn [fst snd].
    + rewrite handleResponse_run. cbn [Http.remote Http.logged]. rewrite Hd.
      rewrite <- app_assoc. f_equal. apply handleResponse_result_independent.
    + reflexivity.
  - destruct (Http.http_Do _ _ rm) as [[response | err] rm']; cbn [fst snd].
    + rewrite handleResponse_run. cbn [Http.remote Http.logged]. rewrite Hd.
      f_equal. apply handleResponse_result_independent.
    + rewrite app_nil_r. reflexivity.
Qed.

(** X6: when the request value cannot be encoded, or [http.NewRequest]
    refuses the verb or the URL, [Request] returns the error (the encoder's
    wrapped with the printed request value, the other as it is), leaves the
    result target as it was, and leaves the world as it was: nothing is
    sent, and nothing is logged even in debug mode. *)
Theorem Request_fails_before_sending {Rq Rs : Type} `{Api.Request Rq} `{Json.Unmarshaler Rs}
    (c : Client) (ctx : GoContext) (req : Rq) (res : Rs) (w : Http.World) :
  (forall cause, Api.Encode req = inr cause ->
     Request c ctx req res w = ((res, Some (EncodeFailed cause (Api.GoSyntax req))), w)) /\
  (forall reqBody err, Api.Encode req = inl reqBody ->
     Http.http_NewRequest (Http.strings_ToUpper (Api.Method req)) (url c ++ Api.Path req)
       reqBody = inr err ->
     Request c ctx req res w = ((res, Some err), w)).
Proof.
  split.
  - intros cause He. unfold Request. rewrite He. reflexivity.
  - intros reqBody err He Hn. unfold Request. rewrite He, Hn. reflexivity.
Qed.

(** X7: once the HTTP request is built, [Request] makes exactly one round
    trip and no other: the remote side ends in the state one [Do] of the
    client's [http.Client] leaves it in.  What is sent is the request
    [http.NewRequest] built from the upper-cased verb, the client's URL
    followed by the path, and the encoded body, with the headers
    [Authorization] (the bearer token of account and key), [Content-Type]
    and [Sdk-Version] added in this order.  An error of the round trip is
    returned as it is, with the result target untouched; a response is
    classified by [handleResponse], whose result is the call's. *)
Theorem Request_one_round_trip {Rq Rs : Type} `{Api.Request Rq} `{Json.Unmarshaler Rs}
    (c : Client) (ctx : GoContext) (req : Rq) (res : Rs) (w : Http.World)
    (reqBody : string) (request : Http.HttpRequest) :
  Api.Encode req = inl reqBody ->
  Http.http_NewRequest (Http.strings_ToUpper (Api.Method req)) (url c ++ Api.Path req) reqBody
  = inl request ->
  let sent :=
    Http.http_Do (cli c)
      {| Http.ReqMethod := Http.ReqMethod request;
         Http.ReqURL := Http.ReqURL request;
         Http.ReqHeader :=
           (Http.ReqHeader request ++
            [("Authorization", ("Bearer account=" ++ username c ++ "&api_key=" ++ key c)%string);
             ("Content-Type", "application/json");
             ("Sdk-Version", Http.SDKVersion)])%list;
         Http.ReqBody := Http.ReqBody request |}
      (Http.remote w) in
  Http.remote (snd (Request c ctx req res w)) = snd sent /\
  (forall err, fst sent = inr err -> fst (Request c ctx req res w) = (res, Some err)) /\
  (forall response, fst sent = inl response ->
     fst (Request c ctx req res w) = fst (handleResponse c ctx response res w)).
Proof.
  intros He Hn. cbv zeta.
  rewrite (Request_run c ctx req res w reqBody request He Hn). cbv zeta.
  unfold with_headers, Http.Header_Add. cbn [Http.ReqMethod Http.ReqURL Http.ReqHeader Http.ReqBody].
  rewrite <- !app_assoc. cbn [app].
  destruct (Http.http_Do _ _ (Http.remote w)) as [[response | err] rm']; cbn [fst snd].
  - repeat split.
    + intros err Herr. discriminate Herr.
    + intros r Hr. injection Hr as <-. reflexivity.
  - repeat split.
    + intros e He'. injection He' as <-. reflexivity.
    + intros r Hr. discriminate Hr.
Qed.

(** X8: [Request] returns no error exactly when the request value is
    encoded, the HTTP request is built, the round trip returns a response,
    its body is read, its status is in 200..299, the body decodes into the
    envelope with code 0 and decodes into the result target; the target then
    holds that decoding. *)
Theorem Request_success_iff {Rq Rs : Type} `{Api.Request Rq} `{Json.Unmarshaler Rs}
    (c : Client) (ctx : GoContext) (req : Rq) (res : Rs) (w : Http.World) :
  snd (fst (Request c ctx req res w)) = None <->
  exists reqBody request response body envelope,
    Api.Encode req = inl reqBody /\
    Http.http_NewRequest (Http.strings_ToUpper (Api.Method req)) (url c ++ Api.Path req)
      reqBody = inl request /\
    fst (Http.http_Do (cli c) (with_headers c request) (Http.remote w)) = inl response /\
    Http.Body response = Http.ReadOk body /\
    is_2xx (Http.StatusCode response) /\
    Json.Unmarshal body (Json.zero : CommmonResponse) = (envelope, None) /\
    Code envelope = 0 /\
    snd (Json.Unmarshal body res) = None /\
    fst (fst (Request c ctx req res w)) = fst (Json.Unmarshal body res).
Proof.
  split.
  - destruct (Api.Encode req) as [reqBody | cause] eqn:He.
    2: { unfold Request. rewrite He. cbn. discriminate. }
    destruct (Http.http_NewRequest (Http.strings_ToUpper (Api.Method req))
                (url c ++ Api.Path req) reqBody) as [request | err] eqn:Hn.
    2: { unfold Request. rewrite He, Hn. cbn. discriminate. }
    rewrite (Request_run c ctx req res w reqBody request He Hn). cbv zeta.
    destruct (Http.http_Do _ _ (Http.remote w)) as [[response | err] rm'] eqn:Hdo;
      cbn [fst snd]; [| discriminate].
    destruct response as [status [body | e]]; [| cbn; discriminate].
    rewrite handleResponse_result.
    destruct (Z.quot status 100 =? 2) eqn:E2; cbn [negb]; [| cbn; discriminate].
    destruct (Json.Valid body) eqn:EV; cbn [negb]; [| cbn; discriminate].
    destruct (Json.Unmarshal body (Json.zero : CommmonResponse)) as [env [e |]] eqn:Eenv;
      [cbn; discriminate |].
    destruct (Code env =? 0) eqn:EC; cbn [negb]; [| cbn; discriminate].
    destruct (Json.Unmarshal body res) as [out' [e |]] eqn:Eout; cbn [fst snd];
      [discriminate |].
    intros _. exists reqBody, request, {| Http.StatusCode := status; Http.Body := Http.ReadOk body |},
      body, env.
    rewrite Hdo. cbn [fst snd Http.Body Http.StatusCode].
    repeat (split;
            [first [reflexivity | assumption | apply status_class; exact E2
                   | apply Z.eqb_eq; exact EC] |]).
    rewrite Eout. split; reflexivity.
  - intros (reqBody & request & response & body & env & He & Hn & Hdo & Hb & H2 & Henv & Hc & Hout & _).
    rewrite (Request_run c ctx req res w reqBody request He Hn). cbv zeta.
    rewrite Hdo. cbn [fst]. destruct response as [status rb]. cbn in Hb, H2. subst rb.
    rewrite handleResponse_result.
    apply status_class in H2. rewrite H2. cbn [negb].
    assert (HV : Json.Valid body = true).
    { apply (Unmarshal_ok_Valid body (Json.zero : CommmonResponse)). now rewrite Henv. }
    rewrite HV, Henv. cbn [negb]. rewrite Hc. cbn [Z.eqb negb].
    destruct (Json.Unmarshal body res) as [out' [e |]]; [discriminate Hout | reflexivity].
Qed.

End RequestProperties.

(** ** The database handle *)

Section DatabaseHandleProperties.

Context {W : Type}.

Context `{Api.Request database.CreateReq} `{Api.Request database.DropReq}
        {CreateRes DropRes : Type}
        `{Json.Zero CreateRes} `{Json.Unmarshaler CreateRes}
        `{Json.Zero DropRes} `{Json.Unmarshaler DropRes}
        `{Api.Request database.ListReq} `{Json.Unmarshaler database.ListRes.t}.

(** X9: [DropDatabase] makes one dispatch and leaves the world as the
    dispatch left it.  It returns an error exactly when the dispatch
    returned one whose text does not contain [not exist], and then it is
    that very error; it returns nil exactly when the dispatch returned no
    error or one whose text contains [not exist]. *)
Theorem DropDatabase_returns_unabsorbed_error (i : Engine.implementerDatabase)
    (ctx : GoContext) (name : string) (w : W) :
  snd (Engine.DropDatabase (DropRes := DropRes) i ctx name w)
  = snd (Sdk.Request (Engine.implementerDatabase_SdkClient i) ctx
           {| database.DropReq_Database := name |} (Json.zero : DropRes) w) /\
  (forall e,
     fst (Engine.DropDatabase (DropRes := DropRes) i ctx name w) = Some e <->
     snd (fst (Sdk.Request (Engine.implementerDatabase_SdkClient i) ctx
                 {| database.DropReq_Database := name |} (Json.zero : DropRes) w)) = Some e /\
     GoStrings.Contains (Error e) "not exist" = false) /\
  (fst (Engine.DropDatabase (DropRes := DropRes) i ctx name w) = None <->
   snd (fst (Sdk.Request (Engine.implementerDatabase_SdkClient i) ctx
               {| database.DropReq_Database := name |} (Json.zero : DropRes) w)) = None \/
   exists e,
     snd (fst (Sdk.Request (Engine.implementerDatabase_SdkClient i) ctx
                 {| database.DropReq_Database := name |} (Json.zero : DropRes) w)) = Some e /\
     GoStrings.Contains (Error e) "not exist" = true).
Proof.
  rewrite DropDatabase_run. cbn [fst snd].
  destruct (Sdk.Request _ ctx _ _ w) as [[res [err |]] w']; cbn [fst snd].
  - destruct (GoStrings.Contains (Error err) "not exist") eqn:Hc.
    + split; [reflexivity |]. split.
      * intros e. split; [discriminate |].
        intros (He & Hn). injection He as <-. congruence.
      * split; [| reflexivity]. intros _. right. exists err. split; [reflexivity | exact Hc].
    + split; [reflexivity |]. split.
      * intros e. split.
        -- intros He. injection He as <-. split; [reflexivity | exact Hc].
        -- intros (He & _). exact He.
      * split; [discriminate |].
        intros [Hn | (e & He & Hn)]; [discriminate Hn |].
        injection He as <-. congruence.
  - split; [reflexivity |]. split.
    + intros e. split; [discriminate |]. intros (He & _). discriminate He.
    + split; [| reflexivity]. intros _. left. reflexivity.
Qed.

(** X10: the test of [DropDatabase] is on the text of the error, whatever
    its origin.  A Transport Error (a status outside 200..299), a Malformed
    Response Error or an error of the HTTP stack is turned into nil as well
    when the response body, or the text of the foreign error, contains
    [not exist]. *)
Theorem DropDatabase_absorbs_by_text (i : Engine.implementerDatabase)
    (ctx : GoContext) (name : string) (w w' : W) (res : DropRes) (e : error)
    (text : string) :
  Sdk.Request (Engine.implementerDatabase_SdkClient i) ctx
    {| database.DropReq_Database := name |} (Json.zero : DropRes) w
  = ((res, Some e), w') ->
  (exists status, e = TransportError status text) \/
  e = InvalidContent text \/
  (exists cause, e = UnmarshalFailed cause text) \/
  e = Foreign text ->
  GoStrings.Contains text "not exist" = true ->
  Engine.DropDatabase (DropRes := DropRes) i ctx name w = (None, w').
Proof.
  intros Hreq Horigin Htext.
  rewrite DropDatabase_run, Hreq. cbn [fst snd].
  assert (Hc : GoStrings.Contains (Error e) "not exist" = true).
  { destruct Horigin as [(status & ->) | [-> | [(cause & ->) | ->]]]; cbn [Error].
    - do 3 apply Contains_append_left. exact Htext.
    - apply Contains_append_left. exact Htext.
    - apply Contains_append_left. apply Contains_append_right. exact Htext.
    - exact Htext. }
  rewrite Hc. reflexivity.
Qed.

(** X11: for a Service Error the outcome of [DropDatabase] depends on the
    message alone, never on the code: the error is turned into nil exactly
    when the message of the service contains [not exist], and is returned
    as it is otherwise. *)
Theorem DropDatabase_service_error_by_message (i : Engine.implementerDatabase)
    (ctx : GoContext) (name : string) (w w' : W) (res : DropRes)
    (code : Z) (msg : string) :
  Sdk.Request (Engine.implementerDatabase_SdkClient i) ctx
    {| database.DropReq_Database := name |} (Json.zero : DropRes) w
  = ((res, Some (ServiceError code msg)), w') ->
  Engine.DropDatabase (DropRes := DropRes) i ctx name w
  = (if GoStrings.Contains msg "not exist" then None else Some (ServiceError code msg), w').
Proof.
  intros Hreq. rewrite DropDatabase_run, Hreq. cbn [fst snd].
  rewrite ServiceError_text_not_exist. reflexivity.
Qed.

(** [CreateDatabase] in terms of the one dispatch it makes. *)
Lemma CreateDatabase_run (i : Engine.implementerDatabase) (ctx : GoContext)
    (name : string) (w : W) :
  Engine.CreateDatabase (CreateRes := CreateRes) i ctx name w =
  (match snd (fst (Sdk.Request (Engine.implementerDatabase_SdkClient i) ctx
                     {| database.CreateReq_Database := name |} (Json.zero : CreateRes) w)) with
   | Some err => (None, Some err)
   | None => (Some (Engine.Database_ i name), None)
   end,
   snd (Sdk.Request (Engine.implementerDatabase_SdkClient i) ctx
          {| database.CreateReq_Database := name |} (Json.zero : CreateRes) w)).
Proof.
  unfold Engine.CreateDatabase, bind, ret.
  destruct (Sdk.Request _ ctx _ _ w) as [[res [err |]] w']; reflexivity.
Qed.

(** X12: [CreateDatabase] returns the error of its dispatch as it is (no
    error text is absorbed, unlike in [DropDatabase]) and returns a handle
    exactly when there is no error: never both, never neither.  The handle
    is for the name asked for, scoped to that name and reaching the service
    through the [SdkClient] of the handle that created it. *)
Theorem CreateDatabase_handle_or_error (i : Engine.implementerDatabase)
    (ctx : GoContext) (name : string) (w : W) :
  snd (Engine.CreateDatabase (CreateRes := CreateRes) i ctx name w)
  = snd (Sdk.Request (Engine.implementerDatabase_SdkClient i) ctx
           {| database.CreateReq_Database := name |} (Json.zero : CreateRes) w) /\
  snd (fst (Engine.CreateDatabase (CreateRes := CreateRes) i ctx name w))
  = snd (fst (Sdk.Request (Engine.implementerDatabase_SdkClient i) ctx
                {| database.CreateReq_Database := name |} (Json.zero : CreateRes) w)) /\
  (fst (fst (Engine.CreateDatabase (CreateRes := CreateRes) i ctx name w)) = None <->
   snd (fst (Engine.CreateDatabase (CreateRes := CreateRes) i ctx name w)) <> None) /\
  (forall h,
     fst (fst (Engine.CreateDatabase (CreateRes := CreateRes) i ctx name w)) = Some h ->
     Engine.DatabaseName h = name /\
     Engine.implementerCollection_databaseName (Engine.CollectionInterface h) = name /\
     Engine.implementerCollection_SdkClient (Engine.CollectionInterface h)
     = Engine.implementerDatabase_SdkClient i).
Proof.
  rewrite CreateDatabase_run. cbn [fst snd].
  destruct (Sdk.Request _ ctx _ _ w) as [[res [err |]] w']; cbn [fst snd].
  - split; [reflexivity |]. split; [reflexivity |]. split.
    + split; [discriminate | reflexivity].
    + intros h Hh. discriminate Hh.
  - split; [reflexivity |]. split; [reflexivity |]. split.
    + split; [discriminate | intros Hn; contradiction].
    + intros h Hh. injection Hh as <-. repeat split.
Qed.

(** The loop of [ListDatabase] appends one handle for each name. *)
Lemma append_handles {A B : Type} (f : A -> B) (l : list A) (acc : list B) :
  fold_left (fun databases v => (databases ++ [f v])%list) l acc = (acc ++ map f l)%list.
Proof.
  revert acc. induction l as [| x l IH]; intros acc; cbn [fold_left map].
  - now rewrite app_nil_r.
  - rewrite IH, <- app_assoc. reflexivity.
Qed.

(** X13: [ListDatabase] returns the error of its dispatch as it is, with
    an empty list.  Without an error it returns one handle for each name of
    the response, in the order of the response, duplicates included: as
    many handles as names, the handle at each position being the one
    [Database] builds for the name at that position. *)
Theorem ListDatabase_one_handle_per_name (i : Engine.implementerDatabase)
    (ctx : GoContext) (w : W) :
  snd (Engine.ListDatabase i ctx w)
  = snd (Sdk.Request (Engine.implementerDatabase_SdkClient i) ctx
           database.mkListReq (Json.zero : database.ListRes.t) w) /\
  snd (fst (Engine.ListDatabase i ctx w))
  = snd (fst (Sdk.Request (Engine.implementerDatabase_SdkClient i) ctx
                database.mkListReq (Json.zero : database.ListRes.t) w)) /\
  (snd (fst (Engine.ListDatabase i ctx w)) <> None ->
   fst (fst (Engine.ListDatabase i ctx w)) = []) /\
  (snd (fst (Engine.ListDatabase i ctx w)) = None ->
   fst (fst (Engine.ListDatabase i ctx w))
   = map (Engine.Database_ i)
       (database.ListRes.Databases
          (fst (fst (Sdk.Request (Engine.implementerDatabase_SdkClient i) ctx
                       database.mkListReq (Json.zero : database.ListRes.t) w)))) /\
   map Engine.DatabaseName (fst (fst (Engine.ListDatabase i ctx w)))
   = database.ListRes.Databases
       (fst (fst (Sdk.Request (Engine.implementerDatabase_SdkClient i) ctx
                    database.mkListReq (Json.zero : database.ListRes.t) w))) /\
   List.length (fst (fst (Engine.ListDatabase i ctx w)))
   = List.length
       (database.ListRes.Databases
          (fst (fst (Sdk.Request (Engine.implementerDatabase_SdkClient i) ctx
                       database.mkListReq (Json.zero : database.ListRes.t) w))))).
Proof.
  unfold Engine.ListDatabase, bind, ret.
  destruct (Sdk.Request _ ctx _ _ w) as [[res [err |]] w']; cbn [fst snd].
  - split; [reflexivity |]. split; [reflexivity |]. split; [reflexivity |].
    intros Hn. discriminate Hn.
  - split; [reflexivity |]. split; [reflexivity |]. split; [intros Hn; contradiction |].
    intros _. rewrite append_handles. cbn [app].
    split; [reflexivity |]. split.
    + rewrite map_map. cbn [Engine.Database_ Engine.DatabaseName]. apply map_id.
    + apply length_map.
Qed.

End DatabaseHandleProperties.

(** ** The two alias implementations *)

Section AliasProperties.

Context {W : Type}.

Context `{Api.Request alias.SetReq} `{Api.Request alias.DeleteReq}
        `{Json.Unmarshaler alias.SetRes.t} `{Json.Unmarshaler alias.DeleteRes.t}.

Variable AIDbTypeError : error.

(** X14: the alias operations of part_000 are the gate followed by the
    operations of database.go on the name of the database: refused with
    [AIDbTypeError] and the world untouched on an AI database, and on any
    other database the very call the implementation without the gate makes.
    The variadic options are never read. *)
Theorem gated_alias_is_gate_then_ungated (i : GatedAlias.implementerAlias)
    (ctx : GoContext) (collectionName aliasName : string)
    (optsS : list (option entity.SetAliasOption))
    (optsD : list (option entity.DeleteAliasOption))
    (optS : option entity.SetAliasOption) (optD : option entity.DeleteAliasOption)
    (w : W) :
  GatedAlias.SetAlias AIDbTypeError i ctx collectionName aliasName optsS w
  = (if entity.IsAIDatabase (GatedAlias.database i)
     then (Sdk.Returns (None, Some AIDbTypeError), w)
     else Engine.SetAlias
            {| Engine.implementerAlias_SdkClient := GatedAlias.implementerAlias_SdkClient i;
               Engine.databaseName := entity.DatabaseName (GatedAlias.database i) |}
            ctx collectionName aliasName optS w) /\
  GatedAlias.DeleteAlias AIDbTypeError i ctx aliasName optsD w
  = (if entity.IsAIDatabase (GatedAlias.database i)
     then (Sdk.Returns (None, Some AIDbTypeError), w)
     else Engine.DeleteAlias
            {| Engine.implementerAlias_SdkClient := GatedAlias.implementerAlias_SdkClient i;
               Engine.databaseName := entity.DatabaseName (GatedAlias.database i) |}
            ctx aliasName optD w).
Proof.
  unfold GatedAlias.SetAlias, GatedAlias.DeleteAlias, Engine.SetAlias, Engine.DeleteAlias.
  destruct (entity.IsAIDatabase (GatedAlias.database i)); split; reflexivity.
Qed.

End AliasProperties.

(** ** The handles over the HTTP client *)

Section ClientHandleProperties.

Context `{Http.Runtime}.

Context `{Api.Request database.DropReq}
        {DropRes : Type} `{Json.Zero DropRes} `{Json.Unmarshaler DropRes}
        `{Api.Request alias.SetReq} `{Api.Request alias.DeleteReq}
        `{Json.Unmarshaler alias.SetRes.t} `{Json.Unmarshaler alias.DeleteRes.t}.

Import tcvectordb.

(** A response with a status in 200..299 whose body is the JSON value
    [null]: the envelope decodes to code 0, and a pointer target is set to
    nil. *)
Lemma handleResponse_null {T : Type} `{Json.Zero T} `{Json.Unmarshaler T}
    (c : Client) (ctx : GoContext) (status : Z) (body : string) (o : option T)
    (w : Http.World) :
  is_2xx status ->
  Json.parse body = Some Json.Null ->
  fst (handleResponse c ctx {| Http.StatusCode := status; Http.Body := Http.ReadOk body |}
         o w) = (None, None).
Proof.
  intros Hst Hp. rewrite handleResponse_result.
  apply status_class in Hst. rewrite Hst. cbn [negb].
  unfold Json.Valid, Json.Unmarshal. rewrite Hp. cbn. reflexivity.
Qed.

(** X15: when the service answers an alias request with a status in
    200..299 and the body [null], the client's [Request] reports success and
    leaves the response pointer nil; [SetAlias] and [DeleteAlias] then read
    the affected count through the nil pointer and panic instead of
    returning. *)
Theorem alias_null_body_panics (c : Client) (databaseName : string) (ctx : GoContext)
    (collectionName aliasName : string)
    (optS : option entity.SetAliasOption) (optD : option entity.DeleteAliasOption)
    (w : Http.World) :
  (forall reqBody request status body,
     Api.Encode {| alias.SetReq_Database := databaseName;
                   alias.SetReq_Collection := collectionName;
                   alias.SetReq_Alias := aliasName |} = inl reqBody ->
     Http.http_NewRequest
       (Http.strings_ToUpper
          (Api.Method {| alias.SetReq_Database := databaseName;
                         alias.SetReq_Collection := collectionName;
                         alias.SetReq_Alias := aliasName |}))
       (url c ++ Api.Path {| alias.SetReq_Database := databaseName;
                             alias.SetReq_Collection := collectionName;
                             alias.SetReq_Alias := aliasName |}) reqBody = inl request ->
     fst (Http.http_Do (cli c) (with_headers c request) (Http.remote w))
     = inl {| Http.StatusCode := status; Http.Body := Http.ReadOk body |} ->
     is_2xx status ->
     Json.parse body = Some Json.Null ->
     fst (Engine.SetAlias
            {| Engine.implementerAlias_SdkClient := Sdk.of_Client c;
               Engine.databaseName := databaseName |}
            ctx collectionName aliasName optS w) = Sdk.Panics) /\
  (forall reqBody request status body,
     Api.Encode {| alias.DeleteReq_Database := databaseName;
                   alias.DeleteReq_Alias := aliasName |} = inl reqBody ->
     Http.http_NewRequest
       (Http.strings_ToUpper
          (Api.Method {| alias.DeleteReq_Database := databaseName;
                         alias.DeleteReq_Alias := aliasName |}))
       (url c ++ Api.Path {| alias.DeleteReq_Database := databaseName;
                             alias.DeleteReq_Alias := aliasName |}) reqBody = inl request ->
     fst (Http.http_Do (cli c) (with_headers c request) (Http.remote w))
     = inl {| Http.StatusCode := status; Http.Body := Http.ReadOk body |} ->
     is_2xx status ->
     Json.parse body = Some Json.Null ->
     fst (Engine.DeleteAlias
            {| Engine.implementerAlias_SdkClient := Sdk.of_Client c;
               Engine.databaseName := databaseName |}
            ctx aliasName optD w) = Sdk.Panics).
Proof.
  split; intros reqBody request status body He Hn Hdo Hst Hp.
  - rewrite SetAlias_run. cbv zeta.
    cbn [Engine.implementerAlias_SdkClient Engine.databaseName Sdk.of_Client Sdk.Request fst].
    rewrite (Request_run c ctx _ _ w reqBody request He Hn). cbv zeta.
    rewrite Hdo. cbn [fst snd].
    rewrite (handleResponse_null c ctx status body _ w Hst Hp). reflexivity.
  - rewrite DeleteAlias_run. cbv zeta.
    cbn [Engine.implementerAlias_SdkClient Engine.databaseName Sdk.of_Client Sdk.Request fst].
    rewrite (Request_run c ctx _ _ w reqBody request He Hn). cbv zeta.
    rewrite Hdo. cbn [fst snd].
    rewrite (handleResponse_null c ctx status body _ w Hst Hp). reflexivity.
Qed.

(** X16: [DropDatabase] over the HTTP client.  Once the drop request is
    built it makes exactly one round trip.  When the answer has a status in
    200..299 and an envelope with a code other than 0, the call returns nil
    if the message of the envelope contains [not exist], and the Service
    Error with that code and message otherwise. *)
Theorem Client_DropDatabase_service_answer (c : Client) (ctx : GoContext)
    (name : string) (w : Http.World) (reqBody : string) (request : Http.HttpRequest)
    (status : Z) (body : string) (envelope : CommmonResponse) :
  Api.Encode {| database.DropReq_Database := name |} = inl reqBody ->
  Http.http_NewRequest
    (Http.strings_ToUpper (Api.Method {| database.DropReq_Database := name |}))
    (url c ++ Api.Path {| database.DropReq_Database := name |}) reqBody = inl request ->
  fst (Http.http_Do (cli c) (with_headers c request) (Http.remote w))
  = inl {| Http.StatusCode := status; Http.Body := Http.ReadOk body |} ->
  is_2xx status ->
  Json.Unmarshal body (Json.zero : CommmonResponse) = (envelope, None) ->
  Code envelope <> 0 ->
  fst (Engine.DropDatabase (DropRes := DropRes) (Engine.VectorDB (Sdk.of_Client c))
         ctx name w)
  = (if GoStrings.Contains (Msg envelope) "not exist" then None
     else Some (ServiceError (Code envelope) (Msg envelope))) /\
  Http.remote (snd (Engine.DropDatabase (DropRes := DropRes)
                      (Engine.VectorDB (Sdk.of_Client c)) ctx name w))
  = snd (Http.http_Do (cli c) (with_headers c request) (Http.remote w)).
Proof.
  intros He Hn Hdo Hst Henv Hcode.
  rewrite DropDatabase_run.
  cbn [Engine.VectorDB Engine.implementerDatabase_SdkClient Sdk.of_Client Sdk.Request fst snd].
  rewrite (Request_run c ctx _ _ w reqBody request He Hn). cbv zeta.
  rewrite Hdo. cbn [fst snd Http.remote].
  split; [| reflexivity].
  rewrite (handleResponse_service_error_general c ctx status body _ w envelope Hst Henv Hcode).
  cbn [snd]. rewrite ServiceError_text_not_exist. reflexivity.
Qed.

End ClientHandleProperties.

(** ** Scenarios for the further properties *)

Section FurtherScenarios.

Import TestTransport.

(** The client built from the test configuration of src/example_test.go:
    the timeout left to the default, the pool settings given. *)
Lemma newClient_http_client_witness :
  let opt := {| tcvectordb.Timeout := 0;
                tcvectordb.MaxIdldConnPerHost := 50;
                tcvectordb.IdleConnTimeout := 30 * tcvectordb.time_Second;
                tcvectordb.ReadConsistency := "";
                tcvectordb.Transport := None |} in
  let merged := {| tcvectordb.Timeout := 5 * tcvectordb.time_Second;
                   tcvectordb.MaxIdldConnPerHost := 50;
                   tcvectordb.IdleConnTimeout := 30 * tcvectordb.time_Second;
                   tcvectordb.ReadConsistency := "eventualConsistency";
                   tcvectordb.Transport := None |} in
  let c := {| tcvectordb.cli :=
                {| Http.Transport :=
                     Http.HttpTransport true 50 (30 * tcvectordb.time_Second);
                   Http.Timeout := 5 * tcvectordb.time_Second |};
              tcvectordb.url := "http://127.0.0.1:8100";
              tcvectordb.username := "root";
              tcvectordb.key := "key";
              tcvectordb.clientOption := merged;
              tcvectordb.debug := false |} in
  fst (tcvectordb.newClient "http://127.0.0.1:8100" "root" "key" opt) = Some c /\
  tcvectordb.Options c = tcvectordb.optionMerge opt /\
  tcvectordb.debug c = false /\
  Http.Timeout (tcvectordb.cli c) = tcvectordb.Timeout (tcvectordb.optionMerge opt) /\
  Http.Timeout (tcvectordb.cli c) <> 0 /\
  (forall rt, tcvectordb.Transport opt = Some rt -> Http.Transport (tcvectordb.cli c) = rt) /\
  (tcvectordb.Transport opt = None ->
   exists idle_per_host idle_timeout,
     Http.Transport (tcvectordb.cli c)
     = Http.HttpTransport true idle_per_host idle_timeout /\
     idle_per_host = tcvectordb.MaxIdldConnPerHost (tcvectordb.optionMerge opt) /\
     idle_per_host <> 0 /\
     idle_timeout = tcvectordb.IdleConnTimeout (tcvectordb.optionMerge opt) /\
     idle_timeout <> 0).
Proof.
  cbv zeta. split; [vm_compute; reflexivity |].
  apply (newClient_http_client "http://127.0.0.1:8100" "root" "key").
  vm_compute. reflexivity.
Defined.

(** The client of scenario A after [Debug(true)] and [WithTimeout] of ten
    seconds. *)
Lemma constructed_client_invariant_witness :
  let c := tcvectordb.WithTimeout (tcvectordb.Debug TestTransport.client true)
             (10 * tcvectordb.time_Second) in
  tcvectordb.constructed c /\
  tcvectordb.client_invariant c /\
  (Api.EventualConsistency <> "" ->
   tcvectordb.ReadConsistency (tcvectordb.Options c) <> "") /\
  (tcvectordb.constructed (tcvectordb.WithTimeout c 0) /\
   tcvectordb.Timeout (tcvectordb.Options (tcvectordb.WithTimeout c 0)) = 0 /\
   Http.Timeout (tcvectordb.cli (tcvectordb.WithTimeout c 0)) = 0).
Proof.
  cbv zeta.
  assert (Hc : tcvectordb.constructed
                 (tcvectordb.WithTimeout (tcvectordb.Debug TestTransport.client true)
                    (10 * tcvectordb.time_Second))).
  { apply tcvectordb.constructed_WithTimeout, tcvectordb.constructed_Debug.
    apply (tcvectordb.constructed_new "http://host:8100" "root" "k"
             tcvectordb.defaultOption).
    vm_compute. reflexivity. }
  split; [exact Hc |].
  apply constructed_client_invariant. exact Hc.
Defined.

(** One drop request on the test transport: what is sent, and that it is
    sent once. *)
Lemma Request_one_round_trip_witness :
  let req := {| database.DropReq_Database := "dbtest1" |} in
  let w := TestTransport.fresh
             [TestTransport.answer 200 (TestTransport.quoted "{'code':0,'msg':'ok'}")] in
  let request :=
    {| Http.ReqMethod := "POST";
       Http.ReqURL := "http://host:8100/database/drop";
       Http.ReqHeader := [];
       Http.ReqBody :=
         TestTransport.quoted "{'database':'dbtest1'}" ++ TestTransport.newline |} in
  let sent :=
    Http.http_Do (tcvectordb.cli TestTransport.client)
      {| Http.ReqMethod := Http.ReqMethod request;
         Http.ReqURL := Http.ReqURL request;
         Http.ReqHeader :=
           (Http.ReqHeader request ++
            [("Authorization",
              ("Bearer account=" ++ tcvectordb.username TestTransport.client
                 ++ "&api_key=" ++ tcvectordb.key TestTransport.client)%string);
             ("Content-Type", "application/json");
             ("Sdk-Version", Http.SDKVersion)])%list;
         Http.ReqBody := Http.ReqBody request |}
      (Http.remote w) in
  TestTransport.calls
    (Http.remote (snd (tcvectordb.Request TestTransport.client context_Background req
                         (Json.zero : TestTransport.CountRes) w))) = 1%N /\
  Http.remote (snd (tcvectordb.Request TestTransport.client context_Background req
                      (Json.zero : TestTransport.CountRes) w)) = snd sent /\
  (forall err, fst sent = inr err ->
     fst (tcvectordb.Request TestTransport.client context_Background req
            (Json.zero : TestTransport.CountRes) w) = (Json.zero, Some err)) /\
  (forall response, fst sent = inl response ->
     fst (tcvectordb.Request TestTransport.client context_Background req
            (Json.zero : TestTransport.CountRes) w)
     = fst (tcvectordb.handleResponse TestTransport.client context_Background response
              (Json.zero : TestTransport.CountRes) w)).
Proof.
  cbv zeta. split; [vm_compute; reflexivity |].
  apply (Request_one_round_trip TestTransport.client context_Background
           {| database.DropReq_Database := "dbtest1" |}
           (Json.zero : TestTransport.CountRes) _
           (TestTransport.quoted "{'database':'dbtest1'}" ++ TestTransport.newline)
           {| Http.ReqMethod := "POST";
              Http.ReqURL := "http://host:8100/database/drop";
              Http.ReqHeader := [];
              Http.ReqBody :=
                TestTransport.quoted "{'database':'dbtest1'}" ++ TestTransport.newline |}).
  - vm_compute. reflexivity.
  - vm_compute. reflexivity.
Defined.

(** A gateway that answers 404 with a page saying that the route does not
    exist: [DropDatabase] reports success. *)
Lemma DropDatabase_absorbs_by_text_witness :
  let i := Engine.VectorDB (Sdk.of_Client TestTransport.client) in
  let w := TestTransport.fresh [TestTransport.answer 404 "the route does not exist"] in
  let r := tcvectordb.Request TestTransport.client context_Background
             {| database.DropReq_Database := "dbtest1" |}
             (Json.zero : TestTransport.CountRes) w in
  fst r = (Json.zero, Some (TransportError 404 "the route does not exist")) /\
  Engine.DropDatabase (DropRes := TestTransport.CountRes) i context_Background "dbtest1" w
  = (None, snd r).
Proof.
  cbv zeta. split; [vm_compute; reflexivity |].
  apply (DropDatabase_absorbs_by_text (DropRes := TestTransport.CountRes)
           (Engine.VectorDB (Sdk.of_Client TestTransport.client))
           context_Background "dbtest1" _ _ Json.zero
           (TransportError 404 "the route does not exist") "the route does not exist").
  - vm_compute. reflexivity.
  - left. exists 404. reflexivity.
  - vm_compute. reflexivity.
Defined.

(** A Service Error whose message does not say [not exist] comes back from
    [DropDatabase] as it is. *)
Lemma DropDatabase_service_error_by_message_witness :
  let i := Engine.VectorDB (Sdk.of_Client TestTransport.client) in
  let w := TestTransport.fresh
             [TestTransport.answer 200
                (TestTransport.quoted "{'code':15000,'msg':'permission denied'}")] in
  let r := tcvectordb.Request TestTransport.client context_Background
             {| database.DropReq_Database := "dbtest1" |}
             (Json.zero : TestTransport.CountRes) w in
  Engine.DropDatabase (DropRes := TestTransport.CountRes) i context_Background "dbtest1" w
  = (Some (ServiceError 15000 "permission denied"), snd r).
Proof.
  cbv zeta.
  assert (Hreq :
    Sdk.Request
      (Engine.implementerDatabase_SdkClient
         (Engine.VectorDB (Sdk.of_Client TestTransport.client)))
      context_Background {| database.DropReq_Database := "dbtest1" |}
      (Json.zero : TestTransport.CountRes)
      (TestTransport.fresh
         [TestTransport.answer 200
            (TestTransport.quoted "{'code':15000,'msg':'permission denied'}")])
    = ((Json.zero, Some (ServiceError 15000 "permission denied")),
       snd (tcvectordb.Request TestTransport.client context_Background
              {| database.DropReq_Database := "dbtest1" |}
              (Json.zero : TestTransport.CountRes)
              (TestTransport.fresh
                 [TestTransport.answer 200
                    (TestTransport.quoted "{'code':15000,'msg':'permission denied'}")]))))
    by (vm_compute; reflexivity).
  exact (DropDatabase_service_error_by_message (DropRes := TestTransport.CountRes)
           _ _ _ _ _ _ _ _ Hreq).
Defined.

(** The service answers an alias request with [null]: the call panics. *)
Lemma alias_null_body_panics_witness :
  fst (Engine.SetAlias
         {| Engine.implementerAlias_SdkClient := Sdk.of_Client TestTransport.client;
            Engine.databaseName := "dbtest1" |}
         context_Background "coll1" "alias1" None
         (TestTransport.fresh [TestTransport.answer 200 " null"])) = Sdk.Panics.
Proof.
  apply (proj1 (alias_null_body_panics TestTransport.client "dbtest1" context_Background
                  "coll1" "alias1" None None
                  (TestTransport.fresh [TestTransport.answer 200 " null"]))
           (TestTransport.quoted "{'database':'dbtest1','collection':'coll1','alias':'alias1'}"
              ++ TestTransport.newline)
           {| Http.ReqMethod := "POST";
              Http.ReqURL := "http://host:8100/alias/set";
              Http.ReqHeader := [];
              Http.ReqBody :=
                TestTransport.quoted
                  "{'database':'dbtest1','collection':'coll1','alias':'alias1'}"
                  ++ TestTransport.newline |}
           200 " null").
  - vm_compute. reflexivity.
  - vm_compute. reflexivity.
  - vm_compute. reflexivity.
  - unfold tcvectordb.is_2xx. lia.
  - vm_compute. reflexivity.
Defined.

(** Dropping a database the service does not know, over HTTP: nil after
    one round trip. *)
Lemma Client_DropDatabase_service_answer_witness :
  let w := TestTransport.fresh
             [TestTransport.answer 200
                (TestTransport.quoted "{'code':1,'msg':'database dbtest1 not exist'}")] in
  let d := Engine.DropDatabase (DropRes := TestTransport.CountRes)
             (Engine.VectorDB (Sdk.of_Client TestTransport.client))
             context_Background "dbtest1" w in
  fst d = None /\ TestTransport.calls (Http.remote (snd d)) = 1%N.
Proof.
  cbv zeta.
  split; [| vm_compute; reflexivity].
  refine (proj1 (Client_DropDatabase_service_answer (DropRes := TestTransport.CountRes)
                   TestTransport.client context_Background "dbtest1" _
                   (TestTransport.quoted "{'database':'dbtest1'}" ++ TestTransport.newline)
                   {| Http.ReqMethod := "POST";
                      Http.ReqURL := "http://host:8100/database/drop";
                      Http.ReqHeader := [];
                      Http.ReqBody :=
                        TestTransport.quoted "{'database':'dbtest1'}"
                          ++ TestTransport.newline |}
                   200 (TestTransport.quoted "{'code':1,'msg':'database dbtest1 not exist'}")
                   {| tcvectordb.Code := 1; tcvectordb.Msg := "database dbtest1 not exist" |}
                   _ _ _ _ _ _)).
  - vm_compute. reflexivity.
  - vm_compute. reflexivity.
  - vm_compute. reflexivity.
  - unfold tcvectordb.is_2xx. lia.
  - vm_compute. reflexivity.
  - cbn. discriminate.
Defined.

(** The URL test at work: upper case is refused, and so is a URL with
    empty credentials besides; anything after [http] is accepted. *)
Lemma newClient_which_error_witness :
  snd (tcvectordb.newClient "HTTP://127.0.0.1:8100" "" "" tcvectordb.defaultOption)
  = Some (InvalidURL "HTTP://127.0.0.1:8100") /\
  snd (tcvectordb.newClient "httpx" "root" "key" tcvectordb.defaultOption) = None /\
  snd (tcvectordb.newClient "http://127.0.0.1:8100" "root" "" tcvectordb.defaultOption)
  = Some EmptyCredentials.
Proof.
  split; [| split].
  - apply (proj1 (newClient_which_error "HTTP://127.0.0.1:8100" "" ""
                    tcvectordb.defaultOption)).
    intros (rest & Hrest). discriminate Hrest.
  - vm_compute. reflexivity.
  - apply (proj1 (proj2 (newClient_which_error "http://127.0.0.1:8100" "root" ""
                           tcvectordb.defaultOption))).
    split; [exists "://127.0.0.1:8100"; reflexivity | right; reflexivity].
Defined.

End FurtherScenarios.
